(** * Verification of the product media gallery (assets/media-gallery.js)

    The repository carries two revisions of the [MediaGallery] custom
    element.  Both share [extractVariantValues] and the lifecycle callbacks
    and differ in [filterSlidesByVariant]:

    - the token-set revision ("Policy A") filters the media containers
      synchronously against every extracted token;
    - the active-colour revision ("Policy B") defers the work with
      [setTimeout], reads the colour label rendered in the document, filters
      containers and thumbnails, and re-creates the slideshow element.

    The development embeds the code as executable Rocq functions over an
    explicit model of the JavaScript values and of the part of the DOM the
    element reads and writes.  [console.log] calls are not modelled. *)

From Stdlib Require Import Strings.String Strings.Ascii Lists.List Bool.Bool.
From Stdlib Require Import Arith.Arith Arith.PeanoNat Lia.
Import ListNotations.
Open Scope string_scope.
Open Scope bool_scope.
Set Warnings "-register-all".

(** ** JavaScript strings

    A string is a sequence of code units.  The model keeps the code units
    U+0000..U+00FF (one [ascii] each), on which [toLowerCase] and [trim] are
    written out exactly as ECMAScript defines them for that range. *)
Module Str.

(** Code units removed by [String.prototype.trim]: TAB, LF, VT, FF, CR,
    SPACE and NO-BREAK SPACE. *)
Definition isWhiteSpace (c : ascii) : bool :=
  let n := nat_of_ascii c in
  (((9 <=? n) && (n <=? 13)) || (n =? 32) || (n =? 160))%nat.

(** Code units with a lower-case mapping: A-Z, and the Latin-1 capitals
    U+00C0..U+00DE without the multiplication sign U+00D7. *)
Definition isUpper (c : ascii) : bool :=
  let n := nat_of_ascii c in
  (((65 <=? n) && (n <=? 90)) ||
   ((192 <=? n) && (n <=? 222) && negb (n =? 215)))%nat.

Definition lowerChar (c : ascii) : ascii :=
  if isUpper c then ascii_of_nat (nat_of_ascii c + 32) else c.

Fixpoint toLowerCase (s : string) : string :=
  match s with
  | EmptyString => EmptyString
  | String c s' => String (lowerChar c) (toLowerCase s')
  end.

Fixpoint trimStart (s : string) : string :=
  match s with
  | EmptyString => EmptyString
  | String c s' => if isWhiteSpace c then trimStart s' else s
  end.

Fixpoint trimEnd (s : string) : string :=
  match s with
  | EmptyString => EmptyString
  | String c s' =>
      match trimEnd s' with
      | EmptyString => if isWhiteSpace c then EmptyString else String c EmptyString
      | r => String c r
      end
  end.

Definition trim (s : string) : string := trimEnd (trimStart s).

Definition isEmpty (s : string) : bool :=
  match s with EmptyString => true | _ => false end.

(** [s.startsWith(t)]. *)
Fixpoint startsWith (t s : string) : bool :=
  match t, s with
  | EmptyString, _ => true
  | String a t', String b s' => Ascii.eqb a b && startsWith t' s'
  | String _ _, EmptyString => false
  end.

(** [s.includes(t)]: [t] occurs in [s] as a contiguous run of code units. *)
Fixpoint includes (s t : string) : bool :=
  startsWith t s ||
  match s with
  | EmptyString => false
  | String _ s' => includes s' t
  end.

(** [s.split(sep)] for a non-empty separator: scan left to right; at a
    position where [sep] starts, close the current segment and jump over
    the separator ([skip] counts the code units of it still to pass). *)
Fixpoint splitFrom (sep : string) (skip : nat) (cur s : string) : list string :=
  match s with
  | EmptyString => [cur]
  | String c s' =>
      match skip with
      | S k => splitFrom sep k cur s'
      | O =>
          if startsWith sep s
          then cur :: splitFrom sep (String.length sep - 1) EmptyString s'
          else splitFrom sep 0 (cur ++ String c EmptyString) s'
      end
  end.

Definition split (sep s : string) : list string :=
  splitFrom sep 0 EmptyString s.

(** [parts.join(sep)] on an array of strings. *)
Definition join (sep : string) (parts : list string) : string :=
  String.concat sep parts.

End Str.

(** ** JavaScript values

    The values a variant resource is made of (what [JSON.parse] and the
    theme's section rendering produce).  A number is kept as the text
    [Number::toString] prints for it: the code observes a number only through
    its truthiness and through [String(...)], and it is falsy exactly for
    zero (printed ["0"], also for -0) and NaN. *)
Module JS.

Inductive value : Type :=
| Undefined
| Null
| Boolean (b : bool)
| Number (printed : string)
| Str (s : string)
| Array (elems : list value)
| Object (props : list (string * value)).

(** [ToBoolean]. *)
Definition truthy (v : value) : bool :=
  match v with
  | Undefined | Null => false
  | Boolean b => b
  | Number p => negb (String.eqb p "0") && negb (String.eqb p "NaN")
  | Str s => negb (Str.isEmpty s)
  | Array _ | Object _ => true
  end.

(** The text [String(v)] returns, when it returns.  An array prints its
    elements separated by commas, with [null] and [undefined] elements printed
    empty; a plain object prints ["[object Object]"].  [String(v)] throws for
    some objects: that is [Exn.stringThrows] and [Exn.callString] below. *)
Fixpoint toString (v : value) : string :=
  match v with
  | Undefined => "undefined"
  | Null => "null"
  | Boolean true => "true"
  | Boolean false => "false"
  | Number p => p
  | Str s => s
  | Array elems =>
      Str.join ","
        (map (fun e => match e with
                       | Undefined | Null => EmptyString
                       | _ => toString e
                       end) elems)
  | Object _ => "[object Object]"
  end.

Fixpoint lookup (k : string) (props : list (string * value)) : value :=
  match props with
  | [] => Undefined
  | (k', v) :: rest => if String.eqb k k' then v else lookup k rest
  end.

(** [v.k] (or [v[k]]) for a receiver that is neither [null] nor
    [undefined], and for the property names the gallery reads
    ([selected_options], [value], [option1]..[option3], [title],
    [resource], [selected_or_first_available_variant]): none of them exists
    on a primitive or on an array, so only an object can answer. *)
Definition get (v : value) (k : string) : value :=
  match v with
  | Object props => lookup k props
  | _ => Undefined
  end.

End JS.

(** ** [MediaGallery.extractVariantValues] (the same in both revisions)

    This module and the two policy modules after it give what the functions
    compute when no [String(...)] call throws; module [Exn] gives the same
    functions with their exceptions. *)
Module Extract.
Import JS.

(** [pushOpt]: the callback given to [res.selected_options.forEach]. *)
Definition pushOpt (values : list string) (opt : value) : list string :=
  if truthy opt && truthy (get opt "value")
  then values ++ [toString (get opt "value")]
  else values.

(** The callback given to [['option1','option2','option3'].forEach]. *)
Definition pushKey (res : value) (values : list string) (k : string) : list string :=
  if truthy (get res k) then values ++ [toString (get res k)] else values.

(** [values] after the two [forEach] loops (source lines 22-32). *)
Definition optionCandidates (res : value) : list string :=
  let values := [] in
  let values :=
    match get res "selected_options" with
    | Array opts => fold_left pushOpt opts values
    | _ => values
    end in
  fold_left (pushKey res) ["option1"; "option2"; "option3"] values.

(** [values] after the title fallback (source lines 33-36). *)
Definition candidates (res : value) : list string :=
  let values := optionCandidates res in
  if (List.length values =? 0)%nat && truthy (get res "title") then
    let titleParts := Str.split " / " (toString (get res "title")) in
    match titleParts with
    | first :: _ => values ++ [first]
    | [] => values
    end
  else values.

(** The normalising [for] loop (source lines 38-44), [out] threaded. *)
Fixpoint normalizeLoop (values out : list string) : list string :=
  match values with
  | [] => out
  | v :: rest =>
      if Str.isEmpty v then normalizeLoop rest out
      else
        let s := Str.toLowerCase (Str.trim v) in
        if (String.length s =? 0)%nat then normalizeLoop rest out
        else normalizeLoop rest (out ++ [s])
  end.

Definition extractVariantValues (res : value) : list string :=
  if negb (truthy res) then []
  else normalizeLoop (candidates res) [].

End Extract.

(** ** The part of the document the gallery reads and writes *)
Module Dom.

(** An [img] element: [getAttribute('alt')] is [null] when the attribute is
    absent. *)
Record Img : Type := { alt : option string }.

(** A [.product-media-container] element: the first [img] below it, if any,
    and its inline [style.display]. *)
Record Container : Type := {
  containerImg : option Img;
  containerDisplay : string
}.

(** A [.slideshow-controls__thumbnails button] element. *)
Record Thumb : Type := {
  thumbImg : option Img;
  thumbDisplay : string;
  ariaSelected : option string
}.

(** What [this.querySelectorAll] and [document.querySelector] see.  The
    slideshow element is known by its node identity: re-creating it gives a
    fresh node, while the containers and thumbnails below it keep their
    attributes and inline styles ([cloneNode(true)] copies them). *)
Record Page : Type := {
  containers : list Container;
  thumbButtons : list Thumb;
  slideshowEl : option nat;
  nextNode : nat;
  colorEl : option string   (* textContent of the selected-option label *)
}.

(** [img.getAttribute('alt') || ''] *)
Definition altOrEmpty (img : Img) : string :=
  match alt img with
  | Some a => if Str.isEmpty a then EmptyString else a
  | None => EmptyString
  end.

Definition setContainerDisplay (d : string) (c : Container) : Container :=
  {| containerImg := containerImg c; containerDisplay := d |}.

Definition setContainers (cs : list Container) (p : Page) : Page :=
  {| containers := cs; thumbButtons := thumbButtons p;
     slideshowEl := slideshowEl p; nextNode := nextNode p;
     colorEl := colorEl p |}.

Definition setThumbButtons (ts : list Thumb) (p : Page) : Page :=
  {| containers := containers p; thumbButtons := ts;
     slideshowEl := slideshowEl p; nextNode := nextNode p;
     colorEl := colorEl p |}.

(** [Array.prototype.forEach((x, index) => ...)] rewriting each element in
    place, the index counted from [start]. *)
Fixpoint forEachIndexed {A : Type} (f : A -> nat -> A) (start : nat) (l : list A) : list A :=
  match l with
  | [] => []
  | x :: rest => f x start :: forEachIndexed f (S start) rest
  end.

End Dom.

(** ** Policy A: [filterSlidesByVariant] of the token-set revision *)
Module PolicyA.
Import Dom.

(** [matches] of the loop body (source lines 91-99). *)
Definition matchesVariant (variantValues : list string) (img : Img) : bool :=
  let alt := Str.trim (Str.toLowerCase (altOrEmpty img)) in
  let variantString := Str.toLowerCase (Str.join " " variantValues) in
  Str.includes alt variantString ||
  existsb (fun val => Str.includes alt val) variantValues.

(** The callback given to [slideContainers.forEach]. *)
Definition filterContainer (variantValues : list string) (container : Container) : Container :=
  match containerImg container with
  | None => container
  | Some img =>
      if negb (matchesVariant variantValues img)
      then setContainerDisplay "none" container
      else setContainerDisplay "" container
  end.

Definition filterSlidesByVariant (variantResource : JS.value) (p : Page) : Page :=
  let variantValues := Extract.extractVariantValues variantResource in
  if (List.length variantValues =? 0)%nat then p
  else setContainers (map (filterContainer variantValues) (containers p)) p.

End PolicyA.

(** ** Policy B: [filterSlidesByVariant] of the active-colour revision *)
Module PolicyB.
Import Dom.

(** Step 1: [colorName], read from the selected-option label when the
    document has one. *)
Definition colorName (p : Page) : string :=
  match colorEl p with
  | Some textContent => Str.toLowerCase (Str.trim textContent)
  | None => EmptyString
  end.

(** Step 2: [colorName || variantValues[0] || '']. *)
Definition activeColor (variantResource : JS.value) (p : Page) : string :=
  let variantValues := Extract.extractVariantValues variantResource in
  if negb (Str.isEmpty (colorName p)) then colorName p
  else match variantValues with
       | first :: _ => if negb (Str.isEmpty first) then first else EmptyString
       | [] => EmptyString
       end.

(** Step 3: the callback given to [slideContainers.forEach]. *)
Definition filterContainer (color : string) (container : Container) : Container :=
  match containerImg container with
  | None => container
  | Some img =>
      let alt := Str.trim (Str.toLowerCase (altOrEmpty img)) in
      let matches := Str.includes alt color in
      setContainerDisplay (if matches then "" else "none") container
  end.

(** Step 4: the callback given to [thumbButtons.forEach]. *)
Definition filterThumb (color : string) (thumb : Thumb) (index : nat) : Thumb :=
  let alt :=
    Str.trim (Str.toLowerCase
      (match thumbImg thumb with
       | Some img => altOrEmpty img
       | None => EmptyString
       end)) in
  let matches := Str.includes alt color in
  {| thumbImg := thumbImg thumb;
     thumbDisplay := if matches then "" else "none";
     ariaSelected := Some (if matches && (index =? 0)%nat then "true" else "false") |}.

(** Step 5: [cloneNode(true)], [replaceWith], [customElements.upgrade]. *)
Definition reinitSlideshow (p : Page) : Page :=
  match slideshowEl p with
  | Some _ =>
      {| containers := containers p; thumbButtons := thumbButtons p;
         slideshowEl := Some (nextNode p); nextNode := S (nextNode p);
         colorEl := colorEl p |}
  | None => p
  end.

(** The function handed to [setTimeout]. *)
Definition timerCallback (variantResource : JS.value) (p : Page) : Page :=
  let color := activeColor variantResource p in
  if Str.isEmpty color then p
  else
    let p := setContainers (map (filterContainer color) (containers p)) p in
    let p := setThumbButtons (forEachIndexed (filterThumb color) 0 (thumbButtons p)) p in
    reinitSlideshow p.

End PolicyB.

(** ** The same functions with their exceptions

    [String(x)] throws a [TypeError] when [x] is an object with an own
    [toString] property (no value of the model is callable, and the inherited
    [valueOf] returns the object itself), or an array holding such an object.
    It is the only operation of [extractVariantValues] that can throw, and
    [extractVariantValues] is the first thing both filters do with the
    resource: a filter that throws has changed nothing. *)
Module Exn.
Import JS Dom.

(** What a call does: it returns a value or throws a [TypeError]. *)
Inductive result (A : Type) : Type :=
| Return (a : A)
| Throw.
Arguments Return {A} a.
Arguments Throw {A}.

(** [String(v)] throws. *)
Fixpoint stringThrows (v : value) : bool :=
  match v with
  | Object props => existsb (fun kv => String.eqb (fst kv) "toString") props
  | Array elems => existsb stringThrows elems
  | _ => false
  end.

(** [String(v)]. *)
Definition callString (v : value) : result string :=
  if stringThrows v then Throw else Return (toString v).

(** [pushOpt]; an exception ends the [forEach] loop. *)
Definition pushOpt (values : result (list string)) (opt : value) : result (list string) :=
  match values with
  | Throw => Throw
  | Return vs =>
      if truthy opt && truthy (get opt "value") then
        match callString (get opt "value") with
        | Throw => Throw
        | Return s => Return (vs ++ [s])%list
        end
      else Return vs
  end.

Definition pushKey (res : value) (values : result (list string)) (k : string)
  : result (list string) :=
  match values with
  | Throw => Throw
  | Return vs =>
      if truthy (get res k) then
        match callString (get res k) with
        | Throw => Throw
        | Return s => Return (vs ++ [s])%list
        end
      else Return vs
  end.

(** [MediaGallery.extractVariantValues]. *)
Definition extractVariantValues (res : value) : result (list string) :=
  if negb (truthy res) then Return []
  else
    let values := Return [] in
    let values :=
      match get res "selected_options" with
      | Array opts => fold_left pushOpt opts values
      | _ => values
      end in
    let values := fold_left (pushKey res) ["option1"; "option2"; "option3"] values in
    match values with
    | Throw => Throw
    | Return values =>
        if (List.length values =? 0)%nat && truthy (get res "title") then
          match callString (get res "title") with
          | Throw => Throw
          | Return title =>
              match Str.split " / " title with
              | first :: _ => Return (Extract.normalizeLoop (values ++ [first])%list [])
              | [] => Return (Extract.normalizeLoop values [])
              end
          end
        else Return (Extract.normalizeLoop values [])
    end.

(** [filterSlidesByVariant] of the token-set revision (Policy A). *)
Definition filterSlidesByVariant (variantResource : value) (p : Page) : result Page :=
  match extractVariantValues variantResource with
  | Throw => Throw
  | Return variantValues =>
      if (List.length variantValues =? 0)%nat then Return p
      else Return (setContainers (map (PolicyA.filterContainer variantValues) (containers p)) p)
  end.

(** The function the active-colour revision (Policy B) hands to
    [setTimeout]. *)
Definition timerCallback (variantResource : value) (p : Page) : result Page :=
  let colorName := PolicyB.colorName p in
  match extractVariantValues variantResource with
  | Throw => Throw
  | Return variantValues =>
      let activeColor :=
        if negb (Str.isEmpty colorName) then colorName
        else match variantValues with
             | first :: _ => if negb (Str.isEmpty first) then first else EmptyString
             | [] => EmptyString
             end in
      if Str.isEmpty activeColor then Return p
      else
        let p := setContainers (map (PolicyB.filterContainer activeColor) (containers p)) p in
        let p := setThumbButtons
                   (forEachIndexed (PolicyB.filterThumb activeColor) 0 (thumbButtons p)) p in
        Return (PolicyB.reinitSlideshow p)
  end.

End Exn.

(** ** The element: listeners, timers and lifecycle callbacks *)
Module Gallery.
Import Dom.

Inductive Policy : Type := PolicyA | PolicyB.

(** The two arrow functions the element registers. *)
Inductive Handler : Type := handleVariantUpdate | handleZoomMediaSelected.

Inductive EventType : Type := variantUpdate | zoomMediaSelected.

Record Listener : Type := { onType : EventType; callback : Handler }.

Record Event : Type := { type : EventType; detail : JS.value }.

Inductive Error : Type := TypeError.

(** The element and what surrounds it.  [target] is
    [this.closest('.shopify-section, dialog')] and [zoomDialogComponent] the
    ref of that name: each is absent or holds the listeners this element
    registered on it, all of them with the signal of [#controller]. *)
Record World : Type := {
  page : Page;
  timers : list JS.value;          (* pending [setTimeout] callbacks, by captured
                                      resource; the 400 ms delay itself is not
                                      modelled, a pending callback runs at some
                                      later [runTimer] step *)
  aborted : bool;                  (* [this.#controller.signal.aborted] *)
  target : option (list Listener);
  zoomDialogComponent : option (list Listener);
  productData : JS.value;          (* [window.ProductData] *)
  selectedVariant : option string; (* [this.dataset.selectedVariant] *)
  selectCalls : list JS.value      (* indices passed to [slideshow.select] *)
}.

Definition setPage (p : Page) (w : World) : World :=
  {| page := p; timers := timers w; aborted := aborted w; target := target w;
     zoomDialogComponent := zoomDialogComponent w; productData := productData w;
     selectedVariant := selectedVariant w; selectCalls := selectCalls w |}.

Definition setTimeout (res : JS.value) (w : World) : World :=
  {| page := page w; timers := (timers w ++ [res])%list; aborted := aborted w;
     target := target w; zoomDialogComponent := zoomDialogComponent w;
     productData := productData w; selectedVariant := selectedVariant w;
     selectCalls := selectCalls w |}.

Definition filterSlidesByVariant (pol : Policy) (variantResource : JS.value) (w : World) : World :=
  match pol with
  | PolicyA => setPage (PolicyA.filterSlidesByVariant variantResource (page w)) w
  | PolicyB => setTimeout variantResource w
  end.

(** The oldest pending timer fires. *)
Definition runTimer (w : World) : World :=
  match timers w with
  | [] => w
  | res :: rest =>
      {| page := PolicyB.timerCallback res (page w); timers := rest;
         aborted := aborted w; target := target w;
         zoomDialogComponent := zoomDialogComponent w;
         productData := productData w; selectedVariant := selectedVariant w;
         selectCalls := selectCalls w |}
  end.

Definition sameListener (a b : Listener) : bool :=
  match onType a, onType b with
  | variantUpdate, variantUpdate | zoomMediaSelected, zoomMediaSelected =>
      match callback a, callback b with
      | handleVariantUpdate, handleVariantUpdate
      | handleZoomMediaSelected, handleZoomMediaSelected => true
      | _, _ => false
      end
  | _, _ => false
  end.

(** [t?.addEventListener(ty, cb, { signal })]: nothing happens on an absent
    target, with an aborted signal, or when the same listener is there. *)
Definition addEventListener (signalAborted : bool) (ty : EventType) (cb : Handler)
           (t : option (list Listener)) : option (list Listener) :=
  match t with
  | None => None
  | Some ls =>
      let l := {| onType := ty; callback := cb |} in
      if signalAborted then Some ls
      else if existsb (sameListener l) ls then Some ls
      else Some (ls ++ [l])%list
  end.

(** [controller.abort()] removes the listeners added with its signal. *)
Definition removeSignalListeners (t : option (list Listener)) : option (list Listener) :=
  match t with
  | None => None
  | Some _ => Some []
  end.

Section Lifecycle.

(** [JSON.parse]: [None] when it throws. *)
Variable JSON_parse : string -> option JS.value.
Variable pol : Policy.

(** [connectedCallback] and [disconnectedCallback].  The calls to the base
    class ([super.connectedCallback()], [super.disconnectedCallback()]) belong
    to the theme's [Component] and are not modelled: they are taken not to
    touch the listeners, the controller or the gallery's elements. *)
Definition connectedCallback (w : World) : World :=
  let w :=
    {| page := page w; timers := timers w; aborted := aborted w;
       target := addEventListener (aborted w) variantUpdate handleVariantUpdate (target w);
       zoomDialogComponent :=
         addEventListener (aborted w) zoomMediaSelected handleZoomMediaSelected
                          (zoomDialogComponent w);
       productData := productData w; selectedVariant := selectedVariant w;
       selectCalls := selectCalls w |} in
  let variantResource := JS.Null in
  let variantResource :=
    if JS.truthy (productData w) &&
       JS.truthy (JS.get (productData w) "selected_or_first_available_variant")
    then JS.get (productData w) "selected_or_first_available_variant"
    else variantResource in
  let variantResource :=
    match selectedVariant w with
    | Some text =>
        if negb (JS.truthy variantResource) && negb (Str.isEmpty text) then
          match JSON_parse text with
          | Some v => v
          | None => variantResource
          end
        else variantResource
    | None => variantResource
    end in
  if JS.truthy variantResource then filterSlidesByVariant pol variantResource w
  else w.

Definition disconnectedCallback (w : World) : World :=
  {| page := page w; timers := timers w; aborted := true;
     target := removeSignalListeners (target w);
     zoomDialogComponent := removeSignalListeners (zoomDialogComponent w);
     productData := productData w; selectedVariant := selectedVariant w;
     selectCalls := selectCalls w |}.

(** A handler's result: the world after it, or the error it threw.  Under
    Policy A the variant-update handler calls the filter at once, and throws
    when the filter does.  The zoom handler is an [async] function: it reads
    [event.detail] only when there is a slideshow (taken to be the
    [slideshow-component] of the page), and an error in it rejects its promise
    and is not thrown to the dispatcher. *)
Definition runHandler (h : Handler) (event : Event) (w : World) : World + Error :=
  match h with
  | handleVariantUpdate =>
      match detail event with
      | JS.Undefined | JS.Null => inr TypeError
      | d =>
          let resource :=
            if JS.truthy (JS.get d "resource") then JS.get d "resource" else JS.Null in
          if JS.truthy resource then
            match pol with
            | PolicyA =>
                match Exn.filterSlidesByVariant resource (page w) with
                | Exn.Throw => inr TypeError
                | Exn.Return p => inl (setPage p w)
                end
            | PolicyB => inl (filterSlidesByVariant pol resource w)
            end
          else inl w
      end
  | handleZoomMediaSelected =>
      match slideshowEl (page w) with
      | Some _ =>
          match detail event with
          | JS.Undefined | JS.Null => inl w
          | d =>
              inl {| page := page w; timers := timers w; aborted := aborted w;
                     target := target w;
                     zoomDialogComponent := zoomDialogComponent w;
                     productData := productData w;
                     selectedVariant := selectedVariant w;
                     selectCalls := (selectCalls w ++ [JS.get d "index"])%list |}
          end
      | None => inl w
      end
  end.

(** The listeners of [ls] for the event's type run in order; an error a
    listener throws is reported and the next listener still runs. *)
Fixpoint invoke (ls : list Listener) (event : Event) (w : World) (errs : list Error)
  : World * list Error :=
  match ls with
  | [] => (w, errs)
  | l :: rest =>
      match onType l, type event with
      | variantUpdate, variantUpdate | zoomMediaSelected, zoomMediaSelected =>
          match runHandler (callback l) event w with
          | inl w' => invoke rest event w' errs
          | inr e => invoke rest event w (errs ++ [e])%list
          end
      | _, _ => invoke rest event w errs
      end
  end.

(** [target.dispatchEvent(event)] on the ancestor container. *)
Definition dispatchOnTarget (event : Event) (w : World) : World * list Error :=
  match target w with
  | None => (w, [])
  | Some ls => invoke ls event w []
  end.

End Lifecycle.

End Gallery.

(** ** The vocabulary of the specification

    Predicates and reference functions in which the properties below are
    stated; none of them is used by the embedded code. *)
Module Spec.
Import JS.

(** [t] occurs in [s] as a contiguous substring. *)
Definition Contains (s t : string) : Prop :=
  exists pre suf, s = pre ++ t ++ suf.

(** [seg] is what precedes the first occurrence of [sep] in [s], or all of
    [s] when [sep] does not occur. *)
Definition FirstSegment (sep s seg : string) : Prop :=
  (~ Contains s sep /\ seg = s) \/
  (exists tail, s = seg ++ sep ++ tail /\
     forall pre suf, s = pre ++ sep ++ suf -> String.length seg <= String.length pre).

(** No code unit of [s] has a lower-case mapping. *)
Fixpoint isLowerCase (s : string) : bool :=
  match s with
  | "" => true
  | String c s' => negb (Str.isUpper c) && isLowerCase s'
  end.

Definition headIsWhiteSpace (s : string) : bool :=
  match s with "" => false | String c _ => Str.isWhiteSpace c end.

Fixpoint lastIsWhiteSpace (s : string) : bool :=
  match s with
  | "" => false
  | String c "" => Str.isWhiteSpace c
  | String _ s' => lastIsWhiteSpace s'
  end.

(** Neither end of [s] is white space. *)
Definition isTrimmed (s : string) : bool :=
  negb (headIsWhiteSpace s) && negb (lastIsWhiteSpace s).

(** "Normalizes: trims, lowercases; drops any token that becomes empty
    after normalization." *)
Definition normalize (v : string) : string := Str.toLowerCase (Str.trim v).

Definition normalizeTokens (values : list string) : list string :=
  filter (fun s => negb (Str.isEmpty s)) (map normalize values).

(** A selected-option entry "carrying a truthy value". *)
Definition carriesValue (opt : value) : bool :=
  truthy opt && truthy (get opt "value").

(** "each selected-option entry's value (stringified) if present and
    truthy" *)
Definition selectedOptionValues (opts : list value) : list string :=
  map (fun opt => toString (get opt "value")) (filter carriesValue opts).

(** "then each of option1, option2, option3 if present and truthy" *)
Definition flatOptionValues (res : value) : list string :=
  flat_map (fun k => if truthy (get res k) then [toString (get res k)] else [])
           ["option1"; "option2"; "option3"].

(** Some [String(...)] call of the selected-options loop throws. *)
Definition selectedThrows (opts : list value) : bool :=
  existsb (fun opt => carriesValue opt && Exn.stringThrows (get opt "value")) opts.

(** Some [String(...)] call of the [option1]..[option3] loop throws. *)
Definition flatThrows (res : value) : bool :=
  existsb (fun k => truthy (get res k) && Exn.stringThrows (get res k))
          ["option1"; "option2"; "option3"].

Definition loopsThrow (res : value) : bool :=
  match get res "selected_options" with
  | Array opts => selectedThrows opts
  | _ => false
  end || flatThrows res.

(** Some [String(...)] call of [extractVariantValues] throws: one of the two
    loops, or the title when it is consulted. *)
Definition extractionThrows (res : value) : bool :=
  truthy res &&
  (loopsThrow res ||
   ((List.length (Extract.optionCandidates res) =? 0)%nat &&
    truthy (get res "title") && Exn.stringThrows (get res "title"))).

(** The "normalized alt text" of an image: the [alt] attribute, empty when
    absent, lowercased and trimmed. *)
Definition normalizedAlt (img : Dom.Img) : string :=
  Str.trim (Str.toLowerCase (match Dom.alt img with Some a => a | None => "" end)).

End Spec.

(** ** Sample data *)
Module Sample.
Import JS Dom.

(** A variant as the storefront serialises it: the selected options and the
    flat option fields name the same two values. *)
Definition redLargeOptions : list value :=
  [Object [("name", Str "Color"); ("value", Str "Red")];
   Object [("name", Str "Size"); ("value", Str "Large")]].

Definition redLarge : value :=
  Object [("title", Str "Red / Large");
          ("option1", Str "Red");
          ("option2", Str "Large");
          ("selected_options", Array redLargeOptions)].

Definition blueLargeTitle : value := Object [("title", Str "Blue / Large")].

Definition red : value := Object [("option1", Str "Red")].

Definition imageWithAlt (a : string) : option Img := Some {| alt := Some a |}.

(** The label of the selected colour, and two thumbnails of which only the
    second shows that colour. *)
Definition blueThenRedThumbs : Page :=
  {| containers := [];
     thumbButtons :=
       [ {| thumbImg := imageWithAlt "Blue Shirt"; thumbDisplay := "";
            ariaSelected := Some "true" |};
         {| thumbImg := imageWithAlt "Red Shirt"; thumbDisplay := "";
            ariaSelected := Some "false" |} ];
     slideshowEl := Some 0;
     nextNode := 1;
     colorEl := Some "Red" |}.

(** A visible thumbnail button without an image. *)
Definition bareThumb : Page :=
  {| containers := [];
     thumbButtons :=
       [ {| thumbImg := None; thumbDisplay := ""; ariaSelected := None |} ];
     slideshowEl := None;
     nextNode := 0;
     colorEl := Some "Red" |}.

Definition shirts : Page :=
  {| containers :=
       [ {| containerImg := imageWithAlt "Red Shirt"; containerDisplay := "none" |};
         {| containerImg := imageWithAlt "Blue Shirt"; containerDisplay := "" |} ];
     thumbButtons := [];
     slideshowEl := None;
     nextNode := 0;
     colorEl := None |}.

(** The gallery on page [p], not yet attached, below an ancestor section. *)
Definition worldOf (p : Page) : Gallery.World :=
  {| Gallery.page := p;
     Gallery.timers := [];
     Gallery.aborted := false;
     Gallery.target := Some [];
     Gallery.zoomDialogComponent := None;
     Gallery.productData := Undefined;
     Gallery.selectedVariant := None;
     Gallery.selectCalls := [] |}.

Definition freshShirts : Gallery.World := worldOf shirts.

(** A variant-update event carrying the red variant. *)
Definition redSelected : Gallery.Event :=
  {| Gallery.type := Gallery.variantUpdate;
     Gallery.detail := Object [("resource", red)] |}.

(** A resource that yields no token. *)
Definition untitled : value := Object [("title", Str "   ")].

End Sample.

(** ** Further sample data and encodings *)
Module Cases.
Import JS Dom.

(** A token list written back as a resource: one selected-option entry per
    token. *)
Definition asSelectedOptions (tokens : list string) : value :=
  Object [("selected_options",
           Array (map (fun t => Object [("value", Str t)]) tokens))].

(** A variant whose first option has two words. *)
Definition mutedPurpleLarge : value :=
  Object [("option1", Str "Muted Purple"); ("option2", Str "Large")].

(** The label reads "Red"; the red image comes first among the containers
    and among the thumbnails, and one container has an image without alt. *)
Definition redFirst : Page :=
  {| containers :=
       [ {| containerImg := Some {| alt := Some "Red Shirt" |}; containerDisplay := "none" |};
         {| containerImg := Some {| alt := Some "Blue Shirt" |}; containerDisplay := "" |};
         {| containerImg := Some {| alt := None |}; containerDisplay := "" |} ];
     thumbButtons :=
       [ {| thumbImg := Some {| alt := Some "Red Shirt" |}; thumbDisplay := "none";
            ariaSelected := Some "false" |};
         {| thumbImg := Some {| alt := Some "Blue Shirt" |}; thumbDisplay := "";
            ariaSelected := Some "true" |} ];
     slideshowEl := Some 0;
     nextNode := 1;
     colorEl := Some "  Red " |}.

(** The same page without the label. *)
Definition redFirstNoLabel : Page :=
  {| containers := containers redFirst;
     thumbButtons := thumbButtons redFirst;
     slideshowEl := slideshowEl redFirst;
     nextNode := nextNode redFirst;
     colorEl := None |}.

(** A gallery whose data attribute holds text that is not JSON. *)
Definition brokenAttribute : Gallery.World :=
  {| Gallery.page := redFirstNoLabel;
     Gallery.timers := [];
     Gallery.aborted := false;
     Gallery.target := Some [];
     Gallery.zoomDialogComponent := Some [];
     Gallery.productData := Undefined;
     Gallery.selectedVariant := Some "{not json";
     Gallery.selectCalls := [] |}.


(** A parser that knows one text. *)
Definition parseBlue (text : string) : option value :=
  if String.eqb text "{}" then Some (Object [("option1", Str "Blue")]) else None.

(** Only white space in [option1], and a title. *)
Definition blankOptionWithTitle : value :=
  Object [("option1", Str "  "); ("title", Str "Blue / Large")].

(** A selected value that [String(...)] rejects. *)
Definition unprintableOption : value :=
  Object [("option1", Object [("toString", Number "1")])].

End Cases.

(** * Properties *)

(** ** Strings *)
Section StringFacts.
Import Str Spec.

Lemma append_empty_r (s : string) : s ++ "" = s.
Proof. induction s as [|c s IH]; simpl; [reflexivity | now rewrite IH]. Qed.

Lemma append_assoc (a b c : string) : (a ++ b) ++ c = a ++ (b ++ c).
Proof. induction a as [|x a IH]; simpl; [reflexivity | now rewrite IH]. Qed.

Lemma isEmpty_true (s : string) : isEmpty s = true <-> s = "".
Proof. destruct s; simpl; split; congruence. Qed.

Lemma isEmpty_length (s : string) : (String.length s =? 0)%nat = isEmpty s.
Proof. destruct s; reflexivity. Qed.

(** *** Containment *)

Lemma startsWith_append (t suf : string) : startsWith t (t ++ suf) = true.
Proof.
  induction t as [|a t IH]; simpl; [reflexivity|].
  now rewrite Ascii.eqb_refl, IH.
Qed.

Lemma startsWith_inv (t s : string) :
  startsWith t s = true -> exists suf, s = t ++ suf.
Proof.
  revert s; induction t as [|a t IH]; intros s H.
  - now exists s.
  - destruct s as [|b s]; simpl in H; [discriminate|].
    apply andb_true_iff in H as [Hab Hts].
    apply Ascii.eqb_eq in Hab; subst b.
    destruct (IH _ Hts) as [suf ->]. now exists suf.
Qed.

Lemma includes_unfold (s t : string) :
  includes s t =
  startsWith t s || match s with "" => false | String _ s' => includes s' t end.
Proof. destruct s; reflexivity. Qed.

Lemma includes_Contains (s t : string) : includes s t = true <-> Contains s t.
Proof.
  split.
  - induction s as [|a s IH]; rewrite includes_unfold; intros H;
      apply orb_true_iff in H as [H|H].
    + destruct (startsWith_inv _ _ H) as [suf E]. now exists "", suf.
    + discriminate.
    + destruct (startsWith_inv _ _ H) as [suf E]. now exists "", suf.
    + destruct (IH H) as (pre & suf & ->). now exists (String a pre), suf.
  - intros (pre & suf & ->).
    induction pre as [|a pre IH]; rewrite includes_unfold; simpl.
    + now rewrite startsWith_append.
    + rewrite IH. apply orb_true_r.
Qed.

Lemma includes_false (s t : string) : includes s t = false <-> ~ Contains s t.
Proof.
  rewrite <- includes_Contains. destruct (includes s t); split; congruence.
Qed.

(** *** Lower case and trimming *)

Ltac each_code_unit c := destruct c as [[] [] [] [] [] [] [] []]; reflexivity.

Lemma isUpper_lowerChar (c : ascii) : isUpper (lowerChar c) = false.
Proof. each_code_unit c. Qed.

Lemma isWhiteSpace_lowerChar (c : ascii) : isWhiteSpace (lowerChar c) = isWhiteSpace c.
Proof. each_code_unit c. Qed.

Lemma lowerChar_fixed (c : ascii) : isUpper c = false -> lowerChar c = c.
Proof. unfold lowerChar. now intros ->. Qed.

Lemma isLowerCase_toLowerCase (s : string) : isLowerCase (toLowerCase s) = true.
Proof.
  induction s as [|c s IH]; simpl; [reflexivity|].
  now rewrite isUpper_lowerChar, IH.
Qed.

Lemma toLowerCase_fixed (s : string) : isLowerCase s = true -> toLowerCase s = s.
Proof.
  induction s as [|c s IH]; simpl; [reflexivity|].
  intros H. apply andb_true_iff in H as [Hc Hs].
  apply negb_true_iff in Hc. now rewrite (lowerChar_fixed _ Hc), IH.
Qed.

Lemma isEmpty_toLowerCase (s : string) : isEmpty (toLowerCase s) = isEmpty s.
Proof. destruct s; reflexivity. Qed.

Lemma headIsWhiteSpace_toLowerCase (s : string) :
  headIsWhiteSpace (toLowerCase s) = headIsWhiteSpace s.
Proof. destruct s; simpl; [reflexivity | apply isWhiteSpace_lowerChar]. Qed.

Lemma lastIsWhiteSpace_toLowerCase (s : string) :
  lastIsWhiteSpace (toLowerCase s) = lastIsWhiteSpace s.
Proof.
  induction s as [|c s IH]; [reflexivity|].
  destruct s as [|d s]; simpl in *; [apply isWhiteSpace_lowerChar | exact IH].
Qed.

Lemma trimEnd_cons (c : ascii) (s : string) :
  trimEnd (String c s) =
  if isEmpty (trimEnd s)
  then (if isWhiteSpace c then "" else String c "")
  else String c (trimEnd s).
Proof. simpl. destruct (trimEnd s); reflexivity. Qed.

Lemma headIsWhiteSpace_trimStart (s : string) : headIsWhiteSpace (trimStart s) = false.
Proof.
  induction s as [|c s IH]; simpl; [reflexivity|].
  destruct (isWhiteSpace c) eqn:E; [exact IH | simpl; exact E].
Qed.

Lemma headIsWhiteSpace_trimEnd (s : string) :
  headIsWhiteSpace s = false -> headIsWhiteSpace (trimEnd s) = false.
Proof.
  destruct s as [|c s]; [reflexivity|]. intros H. simpl in H.
  rewrite trimEnd_cons, H. destruct (isEmpty (trimEnd s)); simpl; exact H.
Qed.

Lemma lastIsWhiteSpace_trimEnd (s : string) : lastIsWhiteSpace (trimEnd s) = false.
Proof.
  induction s as [|c s IH]; [reflexivity|].
  rewrite trimEnd_cons.
  destruct (trimEnd s) as [|d r] eqn:E; simpl.
  - destruct (isWhiteSpace c) eqn:W; simpl; [reflexivity | exact W].
  - exact IH.
Qed.

Lemma isTrimmed_trim (s : string) : isTrimmed (trim s) = true.
Proof.
  unfold isTrimmed, trim.
  rewrite headIsWhiteSpace_trimEnd by apply headIsWhiteSpace_trimStart.
  now rewrite lastIsWhiteSpace_trimEnd.
Qed.

Lemma isTrimmed_toLowerCase (s : string) : isTrimmed (toLowerCase s) = isTrimmed s.
Proof.
  unfold isTrimmed.
  now rewrite headIsWhiteSpace_toLowerCase, lastIsWhiteSpace_toLowerCase.
Qed.

(** *** Splitting *)

Lemma splitFrom_head (sep : string) :
  sep <> "" ->
  forall s cur, exists seg rest,
    splitFrom sep 0 cur s = (cur ++ seg) :: rest /\ FirstSegment sep s seg.
Proof.
  intros Hsep. induction s as [|c s IH]; intros cur.
  - exists "", []. split; [simpl; now rewrite append_empty_r|].
    left. split; [|reflexivity]. intros (pre & suf & E).
    destruct pre; [destruct sep; [congruence | discriminate] | discriminate].
  - cbn [splitFrom]. destruct (startsWith sep (String c s)) eqn:E.
    + eexists "", _. split; [now rewrite append_empty_r|].
      right. destruct (startsWith_inv _ _ E) as [tail Et].
      exists tail. split; [exact Et|]. intros; simpl; lia.
    + destruct (IH (cur ++ String c "")) as (seg & rest & Hs & Hf).
      exists (String c seg), rest. split.
      * rewrite Hs, append_assoc. reflexivity.
      * destruct Hf as [[Hn ->] | (tail & Et & Hmin)].
        -- left. split; [|reflexivity]. intros (pre & suf & Ep).
           destruct pre as [|a pre]; simpl in Ep.
           ++ rewrite Ep, startsWith_append in E. discriminate.
           ++ injection Ep as _ Ep. apply Hn. now exists pre, suf.
        -- right. exists tail. split; [simpl; now rewrite <- Et|].
           intros pre suf Ep. destruct pre as [|a pre]; simpl in Ep.
           ++ rewrite Ep, startsWith_append in E. discriminate.
           ++ injection Ep as _ Ep. simpl. apply le_n_S, (Hmin _ _ Ep).
Qed.

(** [split] always returns at least one segment, and the first one ends
    where the separator first occurs. *)
Lemma split_head (sep s : string) :
  sep <> "" ->
  exists first rest, split sep s = first :: rest /\ FirstSegment sep s first.
Proof.
  intros Hsep. destruct (splitFrom_head sep Hsep s "") as (seg & rest & E & F).
  now exists seg, rest.
Qed.

End StringFacts.

(** ** [extractVariantValues] *)
Section ExtractFacts.
Import JS Extract Spec.

Lemma normalizeTokens_app (a b : list string) :
  normalizeTokens (a ++ b) = (normalizeTokens a ++ normalizeTokens b)%list.
Proof. unfold normalizeTokens. now rewrite map_app, filter_app. Qed.

(** The loop computes the reference normalisation. *)
Lemma normalizeLoop_spec (values out : list string) :
  normalizeLoop values out = (out ++ normalizeTokens values)%list.
Proof.
  revert out; induction values as [|v vs IH]; intros out.
  - simpl. now rewrite app_nil_r.
  - cbn [normalizeLoop]. change (v :: vs) with ([v] ++ vs)%list.
    rewrite normalizeTokens_app. fold (normalize v).
    destruct (Str.isEmpty v) eqn:Ev.
    + apply isEmpty_true in Ev; subst v. apply IH.
    + rewrite isEmpty_length. unfold normalizeTokens at 1. simpl.
      destruct (Str.isEmpty (normalize v)); simpl; rewrite IH;
        [reflexivity | now rewrite <- app_assoc].
Qed.

Lemma fold_pushOpt (opts : list value) (acc : list string) :
  fold_left pushOpt opts acc = (acc ++ selectedOptionValues opts)%list.
Proof.
  revert acc; induction opts as [|o opts IH]; intros acc; simpl.
  - now rewrite app_nil_r.
  - rewrite IH. unfold pushOpt, selectedOptionValues. simpl. fold (carriesValue o).
    destruct (carriesValue o); simpl; [now rewrite <- app_assoc | reflexivity].
Qed.

Lemma fold_pushKey (res : value) (acc : list string) :
  fold_left (pushKey res) ["option1"; "option2"; "option3"] acc
  = (acc ++ flatOptionValues res)%list.
Proof.
  unfold flatOptionValues, pushKey. simpl.
  destruct (truthy (get res "option1")), (truthy (get res "option2")),
    (truthy (get res "option3")); simpl;
    repeat rewrite <- app_assoc; simpl; now rewrite ?app_nil_r.
Qed.

Lemma optionCandidates_spec (res : value) :
  optionCandidates res =
  (match get res "selected_options" with
   | Array opts => selectedOptionValues opts
   | _ => []
   end ++ flatOptionValues res)%list.
Proof.
  unfold optionCandidates. rewrite fold_pushKey.
  destruct (get res "selected_options"); try reflexivity.
  now rewrite fold_pushOpt.
Qed.

Lemma extractVariantValues_spec (res : value) :
  extractVariantValues res
  = if truthy res then normalizeTokens (candidates res) else [].
Proof.
  unfold extractVariantValues. destruct (truthy res); simpl; [|reflexivity].
  now rewrite normalizeLoop_spec.
Qed.

Lemma get_truthy (res : value) (k : string) :
  truthy (get res k) = true -> truthy res = true.
Proof. destruct res; simpl; try discriminate; reflexivity. Qed.

Lemma normalize_token (v : string) :
  isLowerCase (normalize v) = true /\ isTrimmed (normalize v) = true.
Proof.
  unfold normalize. split; [apply isLowerCase_toLowerCase|].
  rewrite isTrimmed_toLowerCase. apply isTrimmed_trim.
Qed.

Lemma extractVariantValues_token (res : value) (t : string) :
  In t (extractVariantValues res) ->
  t <> "" /\ isLowerCase t = true /\ isTrimmed t = true.
Proof.
  rewrite extractVariantValues_spec. destruct (truthy res); [|intros []].
  intros Ht. apply filter_In in Ht as [Hin Hne].
  apply in_map_iff in Hin as (v & <- & _).
  split; [|apply normalize_token].
  intros E. rewrite E in Hne. discriminate.
Qed.

End ExtractFacts.

(** ** The functions with exceptions against the functions without *)
Section ExnFacts.
Import JS Dom Extract Spec.

Lemma fold_pushOpt_throw (opts : list value) :
  fold_left Exn.pushOpt opts Exn.Throw = Exn.Throw.
Proof. induction opts as [|o opts IH]; [reflexivity | exact IH]. Qed.

Lemma fold_pushOpt_exn (opts : list value) (acc : list string) :
  fold_left Exn.pushOpt opts (Exn.Return acc)
  = if selectedThrows opts then Exn.Throw
    else Exn.Return (acc ++ selectedOptionValues opts)%list.
Proof.
  revert acc; induction opts as [|o opts IH]; intros acc.
  - simpl. now rewrite app_nil_r.
  - cbn [fold_left Exn.pushOpt]. unfold selectedThrows, selectedOptionValues.
    cbn [existsb filter]. fold (carriesValue o). unfold Exn.callString.
    destruct (carriesValue o); cbn [andb orb map].
    + destruct (Exn.stringThrows (get o "value")); cbn [orb].
      * apply fold_pushOpt_throw.
      * rewrite IH. unfold selectedThrows, selectedOptionValues.
        destruct (existsb _ opts); [reflexivity|].
        now rewrite <- app_assoc.
    + apply IH.
Qed.

Lemma fold_pushKey_throw (res : value) (ks : list string) :
  fold_left (Exn.pushKey res) ks Exn.Throw = Exn.Throw.
Proof. induction ks as [|k ks IH]; [reflexivity | exact IH]. Qed.

Lemma fold_pushKey_exn (res : value) (ks : list string) (acc : list string) :
  fold_left (Exn.pushKey res) ks (Exn.Return acc)
  = if existsb (fun k => truthy (get res k) && Exn.stringThrows (get res k)) ks
    then Exn.Throw
    else Exn.Return
           (acc ++ flat_map (fun k => if truthy (get res k) then [toString (get res k)] else [])
                            ks)%list.
Proof.
  revert acc; induction ks as [|k ks IH]; intros acc.
  - simpl. now rewrite app_nil_r.
  - cbn [fold_left Exn.pushKey existsb flat_map]. unfold Exn.callString.
    destruct (truthy (get res k)); cbn [andb orb].
    + destruct (Exn.stringThrows (get res k)); cbn [orb].
      * apply fold_pushKey_throw.
      * rewrite IH. destruct (existsb _ ks); [reflexivity|].
        now rewrite <- app_assoc.
    + rewrite IH. reflexivity.
Qed.

(** [Exn.extractVariantValues] throws exactly when one of its [String(...)]
    calls does, and returns what [Extract.extractVariantValues] computes
    otherwise. *)
Lemma exn_extract_spec (res : value) :
  Exn.extractVariantValues res
  = if extractionThrows res then Exn.Throw
    else Exn.Return (extractVariantValues res).
Proof.
  unfold Exn.extractVariantValues, extractionThrows, extractVariantValues.
  destruct (truthy res); [|reflexivity]. cbn [negb andb].
  assert (Hloops :
    fold_left (Exn.pushKey res) ["option1"; "option2"; "option3"]
      match get res "selected_options" with
      | Array opts => fold_left Exn.pushOpt opts (Exn.Return [])
      | _ => Exn.Return []
      end
    = if loopsThrow res then Exn.Throw else Exn.Return (optionCandidates res)).
  { rewrite optionCandidates_spec. unfold loopsThrow, flatThrows, flatOptionValues.
    destruct (get res "selected_options");
      try (rewrite fold_pushKey_exn; reflexivity).
    rewrite fold_pushOpt_exn. destruct (selectedThrows elems).
    - apply fold_pushKey_throw.
    - rewrite fold_pushKey_exn. reflexivity. }
  rewrite Hloops. destruct (loopsThrow res); [reflexivity|]. cbn [orb].
  unfold candidates, Exn.callString.
  destruct ((List.length (optionCandidates res) =? 0)%nat && truthy (get res "title"));
    [|reflexivity].
  cbn [andb]. destruct (Exn.stringThrows (get res "title")); [reflexivity|].
  destruct (Str.split " / " (toString (get res "title"))); reflexivity.
Qed.

Lemma exn_extract_returns (res : value) (tokens : list string) :
  Exn.extractVariantValues res = Exn.Return tokens ->
  extractionThrows res = false /\ tokens = extractVariantValues res.
Proof.
  rewrite exn_extract_spec. destruct (extractionThrows res); [discriminate|].
  intros [= <-]. now split.
Qed.

Lemma exn_filter_spec (res : value) (p : Page) :
  Exn.filterSlidesByVariant res p
  = if extractionThrows res then Exn.Throw
    else Exn.Return (PolicyA.filterSlidesByVariant res p).
Proof.
  unfold Exn.filterSlidesByVariant, PolicyA.filterSlidesByVariant.
  rewrite exn_extract_spec. destruct (extractionThrows res); [reflexivity|].
  destruct (List.length (extractVariantValues res) =? 0)%nat; reflexivity.
Qed.

Lemma exn_timer_spec (res : value) (p : Page) :
  Exn.timerCallback res p
  = if extractionThrows res then Exn.Throw
    else Exn.Return (PolicyB.timerCallback res p).
Proof.
  unfold Exn.timerCallback, PolicyB.timerCallback, PolicyB.activeColor.
  rewrite exn_extract_spec. destruct (extractionThrows res); [reflexivity|].
  cbv zeta. destruct (Str.isEmpty _); reflexivity.
Qed.

Lemma no_candidates_no_throw (res : value) :
  optionCandidates res = [] -> loopsThrow res = false.
Proof.
  rewrite optionCandidates_spec. intros H.
  apply app_eq_nil in H as [Hsel Hflat].
  unfold loopsThrow. apply orb_false_iff. split.
  - destruct (get res "selected_options"); try reflexivity.
    unfold selectedThrows. unfold selectedOptionValues in Hsel.
    apply map_eq_nil in Hsel.
    induction elems as [|o opts IH]; [reflexivity|].
    simpl in *. destruct (carriesValue o); [discriminate|]. now apply IH.
  - unfold flatThrows, flatOptionValues in *. simpl in *.
    destruct (truthy (get res "option1")); [discriminate|].
    destruct (truthy (get res "option2")); [discriminate|].
    destruct (truthy (get res "option3")); [discriminate|]. reflexivity.
Qed.

Lemma normalizedAlt_altOrEmpty (img : Img) :
  Str.trim (Str.toLowerCase (altOrEmpty img)) = normalizedAlt img.
Proof.
  unfold normalizedAlt, altOrEmpty. destruct (alt img) as [a|]; [|reflexivity].
  destruct a; reflexivity.
Qed.

End ExnFacts.

(** ** Extraction: what the token list is made of *)
Section ExtractionClaims.
Import JS Extract Spec.

(** C1, as the code has it: for a resource whose [selected_options] holds
    at least one entry carrying a truthy value, [extractVariantValues]
    returns the values of those entries in order, trimmed and lowercased
    (a value empty after trimming is left out), followed by the tokens of
    the truthy [option1], [option2], [option3] fields normalised the same
    way; the title is not consulted.  When [String(...)] throws on one of
    those values, the call throws instead. *)
Theorem extractVariantValues_selected_then_flat (res : value) (opts : list value) :
  get res "selected_options" = Array opts ->
  existsb carriesValue opts = true ->
  Exn.extractVariantValues res =
    if selectedThrows opts || flatThrows res then Exn.Throw
    else Exn.Return (normalizeTokens (selectedOptionValues opts) ++
                     normalizeTokens (flatOptionValues res))%list.
Proof.
  intros Hsel Hex.
  assert (Hres : truthy res = true).
  { destruct res; simpl in Hsel; try discriminate; reflexivity. }
  assert (Hne : optionCandidates res <> []).
  { rewrite optionCandidates_spec, Hsel.
    apply existsb_exists in Hex as (o & Hin & Ho).
    assert (Hf : In o (filter carriesValue opts)) by (apply filter_In; auto).
    unfold selectedOptionValues.
    destruct (filter carriesValue opts) as [|x xs]; [destruct Hf | discriminate]. }
  assert (Hcand : candidates res = optionCandidates res).
  { unfold candidates. destruct (optionCandidates res); [congruence | reflexivity]. }
  rewrite exn_extract_spec. unfold extractionThrows, loopsThrow.
  rewrite Hres, Hsel. cbn [andb].
  replace (List.length (optionCandidates res) =? 0)%nat with false
    by (destruct (optionCandidates res); [congruence | reflexivity]).
  cbn [andb]. rewrite orb_false_r.
  destruct (selectedThrows opts || flatThrows res); [reflexivity|].
  rewrite extractVariantValues_spec, Hres, Hcand, optionCandidates_spec, Hsel.
  now rewrite normalizeTokens_app.
Qed.

Lemma extractVariantValues_selected_then_flat_witness :
  Exn.extractVariantValues Sample.redLarge =
    Exn.Return (normalizeTokens (selectedOptionValues Sample.redLargeOptions) ++
                normalizeTokens (flatOptionValues Sample.redLarge))%list.
Proof.
  exact (extractVariantValues_selected_then_flat Sample.redLarge Sample.redLargeOptions
           eq_refl eq_refl).
Defined.

(** C1 as worded fails: the variant below has two selected options with
    truthy values, and the result also holds the tokens of [option1] and
    [option2]. *)
Lemma extractVariantValues_includes_flat_options :
  get Sample.redLarge "selected_options" = Array Sample.redLargeOptions /\
  existsb carriesValue Sample.redLargeOptions = true /\
  map normalize (selectedOptionValues Sample.redLargeOptions) = ["red"; "large"] /\
  extractVariantValues Sample.redLarge = ["red"; "large"; "red"; "large"] /\
  extractVariantValues Sample.redLarge
    <> map normalize (selectedOptionValues Sample.redLargeOptions).
Proof. repeat split; try reflexivity. discriminate. Qed.

(** C5 as worded fails: [option1] holds white space only, so the options
    yield no token, the resource has a title, and the result is empty: a
    truthy option value keeps the title from being read. *)
Lemma title_fallback_blocked_by_blank_option :
  normalizeTokens (optionCandidates Cases.blankOptionWithTitle) = [] /\
  truthy (get Cases.blankOptionWithTitle "title") = true /\
  Str.split " / " (toString (get Cases.blankOptionWithTitle "title")) = ["Blue"; "Large"] /\
  Exn.extractVariantValues Cases.blankOptionWithTitle = Exn.Return [] /\
  Exn.extractVariantValues Cases.blankOptionWithTitle <> Exn.Return ["blue"].
Proof. repeat split; try reflexivity. discriminate. Qed.

(** C5, as the code has it: when the selected options and
    [option1]..[option3] push no candidate (none of them is truthy) and the
    resource has a truthy title, the only candidate is the first segment of
    the title split on [" / "], and the result is that segment normalised;
    when [String(...)] throws on the title, the call throws instead. *)
Theorem extractVariantValues_title_fallback (res : value) :
  optionCandidates res = [] ->
  truthy (get res "title") = true ->
  exists first rest,
    Str.split " / " (toString (get res "title")) = first :: rest /\
    FirstSegment " / " (toString (get res "title")) first /\
    Exn.extractVariantValues res =
      if Exn.stringThrows (get res "title") then Exn.Throw
      else Exn.Return (normalizeTokens [first]).
Proof.
  intros Hnone Htitle.
  destruct (split_head " / " (toString (get res "title"))) as (first & rest & Hs & Hf);
    [discriminate|].
  exists first, rest. split; [exact Hs|]. split; [exact Hf|].
  rewrite exn_extract_spec. unfold extractionThrows.
  rewrite (get_truthy _ _ Htitle), (no_candidates_no_throw _ Hnone), Hnone, Htitle.
  cbn [andb orb List.length Nat.eqb].
  destruct (Exn.stringThrows (get res "title")); [reflexivity|].
  assert (Hc : candidates res = [first]).
  { unfold candidates. now rewrite Hnone, Htitle, Hs. }
  now rewrite extractVariantValues_spec, (get_truthy _ _ Htitle), Hc.
Qed.

Lemma extractVariantValues_title_fallback_witness :
  exists first rest,
    Str.split " / " "Blue / Large" = first :: rest /\
    FirstSegment " / " "Blue / Large" first /\
    Exn.extractVariantValues Sample.blueLargeTitle = Exn.Return (normalizeTokens [first]).
Proof.
  exact (extractVariantValues_title_fallback Sample.blueLargeTitle eq_refl eq_refl).
Defined.

(** C6: every token [extractVariantValues] returns is non-empty, lowercase
    and trimmed, and the list is the candidates normalised, without those
    that normalise to the empty string. *)
Theorem extractVariantValues_tokens_normalized (res : value) :
  Forall (fun t => t <> "" /\ isLowerCase t = true /\ isTrimmed t = true)
         (extractVariantValues res) /\
  extractVariantValues res
    = if truthy res then normalizeTokens (candidates res) else [].
Proof.
  split; [|apply extractVariantValues_spec].
  apply Forall_forall. intros t Ht. now apply extractVariantValues_token in Ht.
Qed.

End ExtractionClaims.

(** ** Filtering under Policy A *)
Section PolicyAFacts.
Import JS Dom Extract Spec.

Lemma isLowerCase_append (a b : string) :
  isLowerCase (a ++ b) = isLowerCase a && isLowerCase b.
Proof.
  induction a as [|c a IH]; simpl; [reflexivity|].
  now rewrite IH, andb_assoc.
Qed.

Lemma isLowerCase_join (ts : list string) :
  Forall (fun t => isLowerCase t = true) ts -> isLowerCase (Str.join " " ts) = true.
Proof.
  unfold Str.join. induction 1 as [|t ts Ht _ IH]; [reflexivity|].
  destruct ts as [|u ts]; [exact Ht|].
  change (String.concat " " (t :: u :: ts)) with (t ++ " " ++ String.concat " " (u :: ts)).
  rewrite !isLowerCase_append, Ht, IH. reflexivity.
Qed.

(** The variant string is already lower case: the [toLowerCase] on it
    changes nothing. *)
Lemma variantString_lower (res : value) :
  Str.toLowerCase (Str.join " " (extractVariantValues res))
  = Str.join " " (extractVariantValues res).
Proof.
  apply toLowerCase_fixed, isLowerCase_join, Forall_forall.
  intros t Ht. now apply extractVariantValues_token in Ht.
Qed.

Lemma filterContainer_img (vs : list string) (c : Container) :
  containerImg (PolicyA.filterContainer vs c) = containerImg c.
Proof.
  unfold PolicyA.filterContainer.
  destruct (containerImg c) eqn:E; [|exact E].
  destruct (negb _); exact E.
Qed.

Lemma filterContainer_idem (vs : list string) (c : Container) :
  PolicyA.filterContainer vs (PolicyA.filterContainer vs c) = PolicyA.filterContainer vs c.
Proof.
  unfold PolicyA.filterContainer at 1. rewrite filterContainer_img.
  unfold PolicyA.filterContainer.
  destruct (containerImg c) eqn:E; [|reflexivity].
  destruct (negb _); reflexivity.
Qed.

Lemma setContainers_same (p : Page) : setContainers (containers p) p = p.
Proof. now destruct p. Qed.

Lemma policyA_no_tokens (res : value) (p : Page) :
  extractVariantValues res = [] -> PolicyA.filterSlidesByVariant res p = p.
Proof. unfold PolicyA.filterSlidesByVariant. now intros ->. Qed.

Lemma policyA_containers (res : value) (p : Page) :
  extractVariantValues res <> [] ->
  containers (PolicyA.filterSlidesByVariant res p)
  = map (PolicyA.filterContainer (extractVariantValues res)) (containers p).
Proof.
  unfold PolicyA.filterSlidesByVariant. intros H.
  destruct (extractVariantValues res); [congruence | reflexivity].
Qed.

(** A container without an image keeps its place and its state. *)
Lemma policyA_skips_imageless (res : value) (p : Page) (i : nat) (c : Container) :
  nth_error (containers p) i = Some c ->
  containerImg c = None ->
  nth_error (containers (PolicyA.filterSlidesByVariant res p)) i = Some c.
Proof.
  intros Hi Hc. unfold PolicyA.filterSlidesByVariant.
  destruct (List.length (extractVariantValues res) =? 0)%nat; [exact Hi|].
  cbn [containers setContainers]. rewrite nth_error_map, Hi. simpl.
  unfold PolicyA.filterContainer. now rewrite Hc.
Qed.

(** C4 as worded fails: with a resource that yields no token the joined
    variant string is empty, so every alt text contains it, and the filter
    still leaves a hidden container hidden. *)
Lemma policyA_zero_tokens_keeps_hidden_match :
  Exn.extractVariantValues Sample.untitled = Exn.Return [] /\
  nth_error (containers Sample.shirts) 0
    = Some {| containerImg := Some {| alt := Some "Red Shirt" |};
              containerDisplay := "none" |} /\
  Contains (normalizedAlt {| alt := Some "Red Shirt" |}) (Str.join " " []) /\
  Exn.filterSlidesByVariant Sample.untitled Sample.shirts = Exn.Return Sample.shirts.
Proof.
  repeat split; try reflexivity. now exists "", "red shirt".
Qed.

(** C4, as the code has it: under Policy A, when the resource yields at
    least one token, the filter returns, and a container with an image is
    shown when its normalised alt text (the [alt] attribute, lowercased and
    trimmed) contains the space-joined variant string or one of the tokens
    as a contiguous substring, and hidden when it does not. *)
Theorem policyA_shows_exactly_matching (res : value) (tokens : list string) (p : Page)
        (i : nat) (c : Container) (img : Img) :
  Exn.extractVariantValues res = Exn.Return tokens ->
  tokens <> [] ->
  nth_error (containers p) i = Some c ->
  containerImg c = Some img ->
  let Matches :=
    Contains (normalizedAlt img) (Str.join " " tokens) \/
    exists t, In t tokens /\ Contains (normalizedAlt img) t in
  exists p' c',
    Exn.filterSlidesByVariant res p = Exn.Return p' /\
    nth_error (containers p') i = Some c' /\
    containerImg c' = Some img /\
    (Matches -> containerDisplay c' = "") /\
    (~ Matches -> containerDisplay c' = "none").
Proof.
  intros Hret Hne Hi Hc Matches.
  apply exn_extract_returns in Hret as [Hno ->].
  assert (Hiff : PolicyA.matchesVariant (extractVariantValues res) img = true <-> Matches).
  { unfold PolicyA.matchesVariant, Matches.
    rewrite variantString_lower, orb_true_iff, includes_Contains, existsb_exists.
    rewrite normalizedAlt_altOrEmpty.
    split; intros [H|(t & Hin & Ht)]; auto; right; exists t;
      (split; [exact Hin | now apply includes_Contains]). }
  exists (PolicyA.filterSlidesByVariant res p),
         (PolicyA.filterContainer (extractVariantValues res) c).
  rewrite exn_filter_spec, Hno. split; [reflexivity|].
  rewrite policyA_containers, nth_error_map, Hi by exact Hne.
  split; [reflexivity|].
  unfold PolicyA.filterContainer. rewrite Hc.
  destruct (PolicyA.matchesVariant (extractVariantValues res) img) eqn:E; simpl.
  - repeat split; auto. intros Hn. exfalso. now apply Hn, Hiff.
  - repeat split; auto. intros Hm. apply Hiff in Hm. discriminate.
Qed.

Lemma policyA_shows_exactly_matching_witness :
  exists p' c0 c1,
    Exn.filterSlidesByVariant Sample.red Sample.shirts = Exn.Return p' /\
    nth_error (containers p') 0 = Some c0 /\
    containerImg c0 = Sample.imageWithAlt "Red Shirt" /\ containerDisplay c0 = "" /\
    nth_error (containers p') 1 = Some c1 /\
    containerImg c1 = Sample.imageWithAlt "Blue Shirt" /\ containerDisplay c1 = "none".
Proof.
  destruct (policyA_shows_exactly_matching Sample.red ["red"] Sample.shirts 0
              {| containerImg := Sample.imageWithAlt "Red Shirt"; containerDisplay := "none" |}
              {| alt := Some "Red Shirt" |})
    as (p0 & c0 & Hf0 & Hn0 & Hi0 & Hshow & _);
    [reflexivity | discriminate | reflexivity | reflexivity |].
  destruct (policyA_shows_exactly_matching Sample.red ["red"] Sample.shirts 1
              {| containerImg := Sample.imageWithAlt "Blue Shirt"; containerDisplay := "" |}
              {| alt := Some "Blue Shirt" |})
    as (p1 & c1 & Hf1 & Hn1 & Hi1 & _ & Hhide);
    [reflexivity | discriminate | reflexivity | reflexivity |].
  assert (Hp : p1 = p0) by (rewrite Hf0 in Hf1; now injection Hf1).
  subst p1. exists p0, c0, c1.
  split; [exact Hf0|]. split; [exact Hn0|]. split; [exact Hi0|].
  split.
  - apply Hshow. right. exists "red". split; [now left|]. now exists "", " shirt".
  - split; [exact Hn1|]. split; [exact Hi1|]. apply Hhide.
    intros [H | (t & [<- | []] & H)]; apply includes_Contains in H; discriminate H.
Defined.

(** C10: under Policy A, filtering twice with the same resource leaves the
    page as filtering once. *)
Theorem policyA_filter_idempotent (res : value) (p : Page) :
  PolicyA.filterSlidesByVariant res (PolicyA.filterSlidesByVariant res p)
  = PolicyA.filterSlidesByVariant res p.
Proof.
  unfold PolicyA.filterSlidesByVariant.
  destruct (List.length (extractVariantValues res) =? 0)%nat; [reflexivity|].
  unfold setContainers; cbn [containers thumbButtons slideshowEl nextNode colorEl].
  f_equal. rewrite map_map. apply map_ext. intros c. apply filterContainer_idem.
Qed.

End PolicyAFacts.

(** ** Filtering under Policy B *)
Section PolicyBFacts.
Import JS Dom Extract Spec Gallery.

Lemma policyB_no_color (res : value) (p : Page) :
  PolicyB.activeColor res p = "" -> PolicyB.timerCallback res p = p.
Proof. unfold PolicyB.timerCallback. now intros ->. Qed.

Lemma activeColor_none (res : value) (p : Page) :
  PolicyB.colorName p = "" ->
  extractVariantValues res = [] ->
  PolicyB.activeColor res p = "".
Proof. unfold PolicyB.activeColor. now intros -> ->. Qed.

Lemma nth_error_forEachIndexed {A : Type} (f : A -> nat -> A) (l : list A) :
  forall start i,
    nth_error (forEachIndexed f start l) i
    = option_map (fun x => f x (start + i)) (nth_error l i).
Proof.
  induction l as [|x l IH]; intros start [|i]; simpl; try reflexivity.
  - now rewrite Nat.add_0_r.
  - rewrite IH. now rewrite Nat.add_succ_r.
Qed.

Lemma policyB_containers (res : value) (p : Page) :
  PolicyB.activeColor res p <> "" ->
  containers (PolicyB.timerCallback res p)
  = map (PolicyB.filterContainer (PolicyB.activeColor res p)) (containers p).
Proof.
  unfold PolicyB.timerCallback, PolicyB.reinitSlideshow. intros H.
  destruct (PolicyB.activeColor res p); [congruence|].
  cbn [Str.isEmpty setThumbButtons setContainers slideshowEl].
  destruct (slideshowEl p); reflexivity.
Qed.

Lemma policyB_thumbButtons (res : value) (p : Page) :
  PolicyB.activeColor res p <> "" ->
  thumbButtons (PolicyB.timerCallback res p)
  = forEachIndexed (PolicyB.filterThumb (PolicyB.activeColor res p)) 0 (thumbButtons p).
Proof.
  unfold PolicyB.timerCallback, PolicyB.reinitSlideshow. intros H.
  destruct (PolicyB.activeColor res p); [congruence|].
  cbn [Str.isEmpty setThumbButtons setContainers slideshowEl].
  destruct (slideshowEl p); reflexivity.
Qed.

(** A container without an image keeps its place and its state. *)
Lemma policyB_skips_imageless_container (res : value) (p : Page) (i : nat) (c : Container) :
  nth_error (containers p) i = Some c ->
  containerImg c = None ->
  nth_error (containers (PolicyB.timerCallback res p)) i = Some c.
Proof.
  intros Hi Hc.
  destruct (string_dec (PolicyB.activeColor res p) "") as [E|E].
  - now rewrite policyB_no_color.
  - rewrite policyB_containers, nth_error_map, Hi by exact E. simpl.
    unfold PolicyB.filterContainer. now rewrite Hc.
Qed.

(** A thumbnail without an image is given the empty alt text, which no
    colour occurs in: whenever the pass runs, the thumbnail is hidden. *)
Lemma policyB_hides_imageless_thumb (res : value) (p : Page) (i : nat) (t : Thumb) :
  PolicyB.activeColor res p <> "" ->
  nth_error (thumbButtons p) i = Some t ->
  thumbImg t = None ->
  option_map thumbDisplay (nth_error (thumbButtons (PolicyB.timerCallback res p)) i)
  = Some "none".
Proof.
  intros Hcol Hi Ht.
  rewrite policyB_thumbButtons, nth_error_forEachIndexed, Hi by exact Hcol. simpl.
  rewrite Ht. simpl. destruct (PolicyB.activeColor res p); [congruence | reflexivity].
Qed.

(** [aria-selected] becomes ["true"] at index 0 at most. *)
Lemma policyB_selects_only_index_0 (res : value) (p : Page) (i : nat) (t : Thumb) :
  PolicyB.activeColor res p <> "" ->
  nth_error (thumbButtons (PolicyB.timerCallback res p)) (S i) = Some t ->
  ariaSelected t = Some "false".
Proof.
  intros Hcol. rewrite policyB_thumbButtons, nth_error_forEachIndexed by exact Hcol.
  destruct (nth_error (thumbButtons p) (S i)); simpl; [|discriminate].
  intros [= <-]. simpl. now rewrite andb_false_r.
Qed.

(** C7 as worded fails: called with [null] on a page whose selected-option
    label reads "Red", the Policy B filter hides and shows containers
    according to the label. *)
Lemma null_resource_policyB_follows_label :
  Exn.extractVariantValues Null = Exn.Return [] /\
  map containerDisplay (containers Cases.redFirst) = ["none"; ""; ""] /\
  Exn.timerCallback Null Cases.redFirst
    = Exn.Return (PolicyB.timerCallback Null Cases.redFirst) /\
  map containerDisplay
      (containers (page (runTimer (Gallery.filterSlidesByVariant PolicyB Null
                                     (Sample.worldOf Cases.redFirst)))))
    = [""; "none"; "none"].
Proof. repeat split. Qed.

(** C7, as the code has it: for [null] and for [undefined], extraction
    returns the empty list; the Policy A filter leaves the page as it is, and
    so does the Policy B pass when the document shows no colour label; in
    either revision the variant-update handler leaves the world as it is
    when the event carries a [null] resource or none. *)
Theorem null_resource_changes_nothing (p : Page) (w : World) (pol : Policy) :
  Exn.extractVariantValues Null = Exn.Return [] /\
  Exn.extractVariantValues Undefined = Exn.Return [] /\
  Exn.filterSlidesByVariant Null p = Exn.Return p /\
  Exn.filterSlidesByVariant Undefined p = Exn.Return p /\
  (PolicyB.colorName p = "" ->
   Exn.timerCallback Null p = Exn.Return p /\
   Exn.timerCallback Undefined p = Exn.Return p) /\
  runHandler pol handleVariantUpdate
    {| type := variantUpdate; detail := Object [("resource", Null)] |} w = inl w /\
  runHandler pol handleVariantUpdate
    {| type := variantUpdate; detail := Object [] |} w = inl w.
Proof.
  split; [reflexivity|]. split; [reflexivity|].
  split; [reflexivity|]. split; [reflexivity|].
  split; [|split; reflexivity].
  intros Hc. unfold Exn.timerCallback.
  cbn [Exn.extractVariantValues truthy negb]. rewrite Hc. split; reflexivity.
Qed.

Lemma null_resource_changes_nothing_witness :
  Exn.filterSlidesByVariant Null Sample.shirts = Exn.Return Sample.shirts /\
  Exn.timerCallback Null Sample.shirts = Exn.Return Sample.shirts /\
  Exn.timerCallback Undefined Sample.shirts = Exn.Return Sample.shirts.
Proof.
  destruct (null_resource_changes_nothing Sample.shirts Sample.freshShirts PolicyB)
    as (_ & _ & HA & _ & HB & _).
  split; [exact HA|]. apply HB. reflexivity.
Defined.

Lemma setPage_same (w : World) : setPage (page w) w = w.
Proof. now destruct w. Qed.

(** C8: a resource yielding no token makes the Policy A filter a no-op;
    under Policy B, when the label gives no colour either, the deferred
    pass is a no-op too. *)
Theorem no_tokens_no_color_noop (res : value) (p : Page) (w : World) :
  extractVariantValues res = [] ->
  PolicyA.filterSlidesByVariant res p = p /\
  Gallery.filterSlidesByVariant PolicyA res w = w /\
  (PolicyB.colorName p = "" -> PolicyB.timerCallback res p = p) /\
  (PolicyB.colorName (page w) = "" -> timers w = [] ->
   runTimer (Gallery.filterSlidesByVariant PolicyB res w) = w).
Proof.
  intros Hnone. repeat split.
  - now apply policyA_no_tokens.
  - simpl. rewrite policyA_no_tokens by exact Hnone. apply setPage_same.
  - intros Hc. now apply policyB_no_color, activeColor_none.
  - intros Hc Ht. destruct w as [pg tm ab tg zd pd sv sc]. simpl in *. subst tm.
    unfold runTimer. simpl.
    rewrite policyB_no_color by now apply activeColor_none. reflexivity.
Qed.

Lemma no_tokens_no_color_noop_witness :
  PolicyA.filterSlidesByVariant Sample.untitled Sample.shirts = Sample.shirts /\
  Gallery.filterSlidesByVariant PolicyA Sample.untitled Sample.freshShirts
    = Sample.freshShirts /\
  PolicyB.timerCallback Sample.untitled Sample.shirts = Sample.shirts /\
  runTimer (Gallery.filterSlidesByVariant PolicyB Sample.untitled Sample.freshShirts)
    = Sample.freshShirts.
Proof.
  destruct (no_tokens_no_color_noop Sample.untitled Sample.shirts Sample.freshShirts)
    as (HA & HAw & HB & HBw); [reflexivity|].
  split; [exact HA|]. split; [exact HAw|].
  split; [apply HB | apply HBw]; reflexivity.
Defined.

(** C2, where the code departs from it: the Policy B pass hides a visible
    thumbnail button that has no image. *)
Theorem policyB_hides_thumb_without_image :
  let after :=
    page (runTimer (Gallery.filterSlidesByVariant PolicyB Sample.red
                      (Sample.worldOf Sample.bareThumb))) in
  map thumbImg (thumbButtons Sample.bareThumb) = [None] /\
  map thumbDisplay (thumbButtons Sample.bareThumb) = [""] /\
  after = PolicyB.timerCallback Sample.red Sample.bareThumb /\
  map thumbDisplay (thumbButtons after) = ["none"].
Proof. repeat split. Qed.

(** C3, where the code departs from it: with the colour "red" selected and
    thumbnails "Blue Shirt", "Red Shirt", the second is the first one that
    matches, and no thumbnail is marked selected. *)
Theorem policyB_first_match_not_selected :
  let after :=
    page (runTimer (Gallery.filterSlidesByVariant PolicyB Sample.red
                      (Sample.worldOf Sample.blueThenRedThumbs))) in
  PolicyB.activeColor Sample.red Sample.blueThenRedThumbs = "red" /\
  after = PolicyB.timerCallback Sample.red Sample.blueThenRedThumbs /\
  map thumbDisplay (thumbButtons after) = ["none"; ""] /\
  map ariaSelected (thumbButtons after) = [Some "false"; Some "false"].
Proof. repeat split. Qed.

End PolicyBFacts.

(** ** Lifecycle *)
Section LifecycleFacts.
Import JS Dom Gallery.

Variable JSON_parse : string -> option JS.value.

Lemma disconnected_no_listeners (w : World) :
  target (disconnectedCallback w) = None \/ target (disconnectedCallback w) = Some [].
Proof. simpl. destruct (target w); auto. Qed.

(** C9: once [disconnectedCallback] has run, the ancestor container holds
    no listener of the element, and a variant-update event dispatched on it
    reaches no handler: the world (visibility, pending timers) is unchanged
    and no error is reported. *)
Theorem detached_ignores_variant_update (pol : Policy) (w : World) (detail : JS.value) :
  (forall ls, target (disconnectedCallback w) = Some ls -> ls = []) /\
  dispatchOnTarget pol {| type := variantUpdate; detail := detail |}
                   (disconnectedCallback w)
  = (disconnectedCallback w, []).
Proof.
  unfold dispatchOnTarget.
  destruct (disconnected_no_listeners w) as [E | E]; rewrite E; split;
    try reflexivity; congruence.
Qed.

(** The signal stays aborted: attaching the element again registers
    nothing, so the event still reaches no handler. *)
Lemma aborted_connect_registers_nothing (pol : Policy) (w : World) :
  aborted w = true ->
  target (connectedCallback JSON_parse pol w) = target w /\
  aborted (connectedCallback JSON_parse pol w) = true.
Proof.
  intros Ha. unfold connectedCallback. rewrite Ha.
  assert (Hadd : forall ty cb t, addEventListener true ty cb t = t)
    by (intros ty cb [l|]; reflexivity).
  rewrite !Hadd.
  match goal with |- context [if ?b then _ else _] => destruct b end;
    [destruct pol|]; simpl; auto.
Qed.

End LifecycleFacts.

(** While attached, the same event does reach the handler: under Policy A
    the red shirt is shown and the blue one hidden. *)
Example attached_handles_variant_update :
  let w := Gallery.connectedCallback (fun _ => None) Gallery.PolicyA Sample.freshShirts in
  map Dom.containerDisplay
      (Dom.containers (Gallery.page (fst (Gallery.dispatchOnTarget Gallery.PolicyA Sample.redSelected w))))
  = [""; "none"].
Proof. reflexivity. Qed.

(** A selected value made of white space only is truthy, so it blocks the
    title fallback, and it is dropped by the normalisation. *)
Example extract_blank_selected_value :
  Extract.extractVariantValues
    (JS.Object [("selected_options", JS.Array [JS.Object [("value", JS.Str "  ")]]);
                ("title", JS.Str "Blue / Large")]) = [].
Proof. reflexivity. Qed.

Example extract_title_only :
  Extract.extractVariantValues (JS.Object [("title", JS.Str "Blue / Large")]) = ["blue"].
Proof. reflexivity. Qed.

Example extract_option1_only :
  Extract.extractVariantValues (JS.Object [("option1", JS.Str "Red")]) = ["red"].
Proof. reflexivity. Qed.

(** * Further properties of the code *)

(** ** More on strings *)
Section MoreStringFacts.
Import Str Spec.

Lemma trimStart_fixed (s : string) : headIsWhiteSpace s = false -> trimStart s = s.
Proof. destruct s as [|c s]; simpl; [reflexivity | now intros ->]. Qed.

Lemma trimEnd_fixed (s : string) : lastIsWhiteSpace s = false -> trimEnd s = s.
Proof.
  induction s as [|c s IH]; [reflexivity|]. intros H.
  rewrite trimEnd_cons. destruct s as [|d r].
  - simpl in *. now rewrite H.
  - rewrite IH by exact H. reflexivity.
Qed.

Lemma trim_fixed (s : string) : isTrimmed s = true -> trim s = s.
Proof.
  unfold isTrimmed, trim. intros H. apply andb_true_iff in H as [Hh Hl].
  apply negb_true_iff in Hh, Hl. now rewrite trimStart_fixed, trimEnd_fixed.
Qed.

Lemma normalize_fixed (t : string) :
  isLowerCase t = true -> isTrimmed t = true -> normalize t = t.
Proof. intros Hl Ht. unfold normalize. now rewrite trim_fixed, toLowerCase_fixed. Qed.


Lemma Contains_prefix (s t u : string) : Contains s (t ++ u) -> Contains s t.
Proof.
  intros (pre & suf & ->). exists pre, (u ++ suf). now rewrite append_assoc.
Qed.

Lemma join_cons (sep t : string) (ts : list string) :
  exists u, Str.join sep (t :: ts) = t ++ u.
Proof.
  destruct ts as [|x ts].
  - exists "". simpl. now rewrite append_empty_r.
  - now exists (sep ++ Str.join sep (x :: ts)).
Qed.

End MoreStringFacts.

(** ** More on [extractVariantValues] *)
Section MoreExtractFacts.
Import JS Extract Spec.

Lemma normalizeTokens_fixed (ts : list string) :
  (forall t, In t ts -> t <> "" /\ isLowerCase t = true /\ isTrimmed t = true) ->
  normalizeTokens ts = ts.
Proof.
  unfold normalizeTokens. induction ts as [|t ts IH]; intros H; [reflexivity|].
  destruct (H t (or_introl eq_refl)) as (Hne & Hl & Ht).
  simpl. rewrite (normalize_fixed t Hl Ht).
  destruct t; [congruence|]. simpl. f_equal.
  apply IH. intros u Hu. apply H. now right.
Qed.

Lemma selectedOptionValues_encoded (ts : list string) :
  (forall t, In t ts -> t <> "") ->
  selectedOptionValues (map (fun t => Object [("value", Str t)]) ts) = ts.
Proof.
  unfold selectedOptionValues. induction ts as [|t ts IH]; intros H; [reflexivity|].
  assert (Hne : t <> "") by (apply H; now left).
  destruct t as [|c t]; [congruence|].
  cbn. f_equal. apply IH. intros u Hu. apply H. now right.
Qed.

(** X1: the tokens written back as selected options and extracted again are
    the same tokens. *)
Theorem extract_tokens_round_trip (res : value) :
  extractVariantValues (Cases.asSelectedOptions (extractVariantValues res))
  = extractVariantValues res.
Proof.
  set (ts := extractVariantValues res).
  assert (Htok : forall t, In t ts -> t <> "" /\ isLowerCase t = true /\ isTrimmed t = true)
    by (intros t Ht; now apply (extractVariantValues_token res)).
  assert (Hc : candidates (Cases.asSelectedOptions ts) = ts).
  { unfold candidates. rewrite optionCandidates_spec. cbn.
    rewrite app_nil_r, selectedOptionValues_encoded by (intros t Ht; now apply Htok).
    now rewrite andb_false_r. }
  rewrite extractVariantValues_spec.
  replace (truthy (Cases.asSelectedOptions ts)) with true by reflexivity.
  rewrite Hc. now apply normalizeTokens_fixed.
Qed.



Lemma normalizeTokens_length (vs : list string) :
  List.length (normalizeTokens vs) <= List.length vs.
Proof.
  unfold normalizeTokens.
  etransitivity; [apply filter_length_le | now rewrite length_map].
Qed.

Lemma flatOptionValues_length (res : value) : List.length (flatOptionValues res) <= 3.
Proof.
  unfold flatOptionValues. simpl.
  destruct (truthy (get res "option1")), (truthy (get res "option2")),
    (truthy (get res "option3")); simpl; lia.
Qed.

(** X3: the result has at most one token per selected-option entry plus
    three; without a [selected_options] array it has at most three. *)
Theorem extract_length_bound (res : value) :
  List.length (extractVariantValues res)
  <= match get res "selected_options" with
     | Array opts => List.length opts
     | _ => 0
     end + 3.
Proof.
  rewrite extractVariantValues_spec. destruct (truthy res); [|simpl; lia].
  etransitivity; [apply normalizeTokens_length|].
  assert (Hopt : List.length (optionCandidates res)
                 <= match get res "selected_options" with
                    | Array opts => List.length opts
                    | _ => 0
                    end + 3).
  { rewrite optionCandidates_spec, length_app.
    pose proof (flatOptionValues_length res) as Hf.
    destruct (get res "selected_options"); simpl; try lia.
    unfold selectedOptionValues. rewrite length_map.
    pose proof (filter_length_le carriesValue elems). lia. }
  unfold candidates.
  destruct (optionCandidates res) as [|v vs] eqn:E; [|exact Hopt].
  simpl. destruct (truthy (get res "title")); [|simpl; lia].
  destruct (Str.split " / " (toString (get res "title"))); simpl; lia.
Qed.

(** X4: a resource that is not an object (a string, a number, a boolean, an
    array, [null], [undefined]) yields no token. *)
Theorem extract_non_object (res : value) :
  match res with
  | Object _ => True
  | _ => extractVariantValues res = []
  end.
Proof.
  destruct res as [| |b|n|s|l|props]; try exact I;
    unfold extractVariantValues; destruct (negb _); reflexivity.
Qed.

End MoreExtractFacts.

(** ** More on Policy A *)
Section MorePolicyAFacts.
Import JS Dom Extract Spec.

Lemma matchesVariant_token_test (res : value) (img : Img) :
  extractVariantValues res <> [] ->
  PolicyA.matchesVariant (extractVariantValues res) img
  = existsb (fun val => Str.includes (Str.trim (Str.toLowerCase (altOrEmpty img))) val)
            (extractVariantValues res).
Proof.
  intros Hne. unfold PolicyA.matchesVariant. rewrite variantString_lower.
  destruct (extractVariantValues res) as [|t ts]; [congruence|].
  destruct (Str.includes _ (Str.join " " (t :: ts))) eqn:E; [|reflexivity].
  apply includes_Contains in E. destruct (join_cons " " t ts) as [u Hu].
  rewrite Hu in E. apply Contains_prefix, includes_Contains in E.
  simpl. now rewrite E.
Qed.

(** X5: with at least one token, the test on the joined variant string adds
    nothing: a container matches exactly when its alt text contains one of
    the tokens. *)
Theorem policyA_match_is_token_test (res : value) (img : Img) :
  extractVariantValues res <> [] ->
  PolicyA.matchesVariant (extractVariantValues res) img
  = existsb (fun val => Str.includes (Str.trim (Str.toLowerCase (altOrEmpty img))) val)
            (extractVariantValues res).
Proof. apply matchesVariant_token_test. Qed.

Lemma policyA_match_is_token_test_witness :
  PolicyA.matchesVariant (extractVariantValues Cases.mutedPurpleLarge)
                         {| alt := Some "Shirt in Muted Purple" |}
  = existsb (fun val => Str.includes "shirt in muted purple" val)
            (extractVariantValues Cases.mutedPurpleLarge).
Proof.
  apply (policyA_match_is_token_test Cases.mutedPurpleLarge
           {| alt := Some "Shirt in Muted Purple" |}).
  discriminate.
Defined.

(** X6: the Policy A filter keeps the containers' number, order and images
    and touches nothing else of the page (thumbnails, slideshow element,
    colour label). *)
Theorem policyA_frame (res : value) (p : Page) :
  map containerImg (containers (PolicyA.filterSlidesByVariant res p))
    = map containerImg (containers p) /\
  thumbButtons (PolicyA.filterSlidesByVariant res p) = thumbButtons p /\
  slideshowEl (PolicyA.filterSlidesByVariant res p) = slideshowEl p /\
  nextNode (PolicyA.filterSlidesByVariant res p) = nextNode p /\
  colorEl (PolicyA.filterSlidesByVariant res p) = colorEl p.
Proof.
  unfold PolicyA.filterSlidesByVariant.
  destruct (List.length (extractVariantValues res) =? 0)%nat; simpl;
    repeat split; try reflexivity.
  rewrite map_map. apply map_ext. intros c. apply filterContainer_img.
Qed.






End MorePolicyAFacts.

(** ** More on Policy B *)
Section MorePolicyBFacts.
Import JS Dom Extract Spec.

Lemma colorEl_timerCallback (res : value) (p : Page) :
  colorEl (PolicyB.timerCallback res p) = colorEl p.
Proof.
  unfold PolicyB.timerCallback, PolicyB.reinitSlideshow.
  destruct (Str.isEmpty _); [reflexivity|].
  cbn [slideshowEl setThumbButtons setContainers]. destruct (slideshowEl p); reflexivity.
Qed.

Lemma activeColor_colorEl (res : value) (p q : Page) :
  colorEl p = colorEl q -> PolicyB.activeColor res p = PolicyB.activeColor res q.
Proof. unfold PolicyB.activeColor, PolicyB.colorName. now intros ->. Qed.

Lemma activeColor_label (res : value) (p : Page) :
  PolicyB.colorName p <> "" -> PolicyB.activeColor res p = PolicyB.colorName p.
Proof.
  unfold PolicyB.activeColor. destruct (PolicyB.colorName p); [congruence | reflexivity].
Qed.

Lemma activeColor_fallback (res : value) (p : Page) :
  PolicyB.colorName p = "" ->
  PolicyB.activeColor res p
  = match extractVariantValues res with first :: _ => first | [] => "" end.
Proof.
  unfold PolicyB.activeColor. intros ->. simpl.
  destruct (extractVariantValues res) as [|t ts]; [reflexivity|].
  destruct t; reflexivity.
Qed.

Lemma timerCallback_by_color (r1 r2 : value) (p : Page) :
  PolicyB.activeColor r1 p = PolicyB.activeColor r2 p ->
  PolicyB.timerCallback r1 p = PolicyB.timerCallback r2 p.
Proof. unfold PolicyB.timerCallback. now intros ->. Qed.

(** X9: when the selected-option label shows a colour, a Policy B pass
    whose extraction returns gives the page the label alone gives (the one
    for a [null] resource), whatever the resource holds; a pass whose
    extraction throws changes nothing. *)
Theorem policyB_label_overrides_resource (r : value) (p : Page) :
  PolicyB.colorName p <> "" ->
  Exn.timerCallback r p
  = match Exn.extractVariantValues r with
    | Exn.Throw => Exn.Throw
    | Exn.Return _ => Exn.timerCallback Null p
    end.
Proof.
  intros H. rewrite !exn_timer_spec, exn_extract_spec.
  destruct (extractionThrows r); [reflexivity|].
  cbn [extractionThrows truthy andb]. f_equal.
  apply timerCallback_by_color. now rewrite !activeColor_label.
Qed.

Lemma policyB_label_overrides_resource_witness :
  Exn.timerCallback Cases.mutedPurpleLarge Cases.redFirst
  = Exn.timerCallback Null Cases.redFirst.
Proof.
  exact (policyB_label_overrides_resource Cases.mutedPurpleLarge Cases.redFirst
           ltac:(discriminate)).
Defined.







Lemma policyB_filterContainer_img (color : string) (c : Container) :
  containerImg (PolicyB.filterContainer color c) = containerImg c.
Proof.
  unfold PolicyB.filterContainer. destruct (containerImg c) eqn:E; exact E.
Qed.

Lemma policyB_filterContainer_idem (color : string) (c : Container) :
  PolicyB.filterContainer color (PolicyB.filterContainer color c)
  = PolicyB.filterContainer color c.
Proof.
  unfold PolicyB.filterContainer at 1. rewrite policyB_filterContainer_img.
  unfold PolicyB.filterContainer. destruct (containerImg c); reflexivity.
Qed.

Lemma forEachIndexed_twice {A : Type} (f : A -> nat -> A) :
  (forall x i, f (f x i) i = f x i) ->
  forall l start,
    forEachIndexed f start (forEachIndexed f start l) = forEachIndexed f start l.
Proof.
  intros Hf. induction l as [|x l IH]; intros start; simpl; [reflexivity|].
  now rewrite Hf, IH.
Qed.

Lemma map_forEachIndexed {A B : Type} (g : A -> B) (f : A -> nat -> A) :
  (forall x i, g (f x i) = g x) ->
  forall l start, map g (forEachIndexed f start l) = map g l.
Proof.
  intros Hf. induction l as [|x l IH]; intros start; simpl; [reflexivity|].
  now rewrite Hf, IH.
Qed.

(** X13: a second Policy B pass with the same resource changes no display
    value and no selection mark: containers and thumbnails are as after the
    first pass. *)
Theorem policyB_visibility_idempotent (res : value) (p : Page) :
  containers (PolicyB.timerCallback res (PolicyB.timerCallback res p))
    = containers (PolicyB.timerCallback res p) /\
  thumbButtons (PolicyB.timerCallback res (PolicyB.timerCallback res p))
    = thumbButtons (PolicyB.timerCallback res p).
Proof.
  pose proof (activeColor_colorEl res _ _ (colorEl_timerCallback res p)) as Hsame.
  destruct (string_dec (PolicyB.activeColor res p) "") as [E|E].
  - rewrite !(policyB_no_color res p E). split; reflexivity.
  - assert (E' : PolicyB.activeColor res (PolicyB.timerCallback res p) <> "")
      by now rewrite Hsame.
    rewrite (policyB_containers _ _ E'), (policyB_thumbButtons _ _ E'), Hsame.
    rewrite (policyB_containers _ _ E), (policyB_thumbButtons _ _ E).
    split.
    + rewrite map_map. apply map_ext. intros c. apply policyB_filterContainer_idem.
    + apply forEachIndexed_twice. reflexivity.
Qed.

(** X14: a Policy B pass keeps the number, order and images of containers
    and thumbnails and the colour label, and it neither adds a slideshow
    element nor removes one. *)
Theorem policyB_frame (res : value) (p : Page) :
  map containerImg (containers (PolicyB.timerCallback res p))
    = map containerImg (containers p) /\
  map thumbImg (thumbButtons (PolicyB.timerCallback res p))
    = map thumbImg (thumbButtons p) /\
  colorEl (PolicyB.timerCallback res p) = colorEl p /\
  (slideshowEl (PolicyB.timerCallback res p) = None <-> slideshowEl p = None).
Proof.
  destruct (string_dec (PolicyB.activeColor res p) "") as [E|E].
  - rewrite (policyB_no_color res p E). repeat split; auto.
  - rewrite (policyB_containers _ _ E), (policyB_thumbButtons _ _ E).
    split; [|split; [|split]].
    + rewrite map_map. apply map_ext. intros c. apply policyB_filterContainer_img.
    + apply map_forEachIndexed. reflexivity.
    + apply colorEl_timerCallback.
    + unfold PolicyB.timerCallback, PolicyB.reinitSlideshow.
      destruct (PolicyB.activeColor res p); [congruence|].
      cbn [Str.isEmpty slideshowEl setThumbButtons setContainers].
      destruct (slideshowEl p) eqn:Es; simpl; rewrite ?Es; split; intros H;
        (discriminate H || reflexivity).
Qed.



(** X16: without a colour label and for a resource that yields exactly one
    token, the Policy B pass leaves the containers as the Policy A filter
    does. *)
Theorem policies_agree_on_single_token (res : value) (p : Page) (t : string) :
  PolicyB.colorName p = "" ->
  extractVariantValues res = [t] ->
  containers (PolicyB.timerCallback res p)
  = containers (PolicyA.filterSlidesByVariant res p).
Proof.
  intros Hc Ht.
  assert (Htok : t <> "" /\ isLowerCase t = true /\ isTrimmed t = true)
    by (apply (extractVariantValues_token res); rewrite Ht; now left).
  destruct Htok as (Hne & Hl & _).
  assert (Hcol : PolicyB.activeColor res p = t)
    by (rewrite activeColor_fallback, Ht by exact Hc; reflexivity).
  rewrite policyB_containers by (rewrite Hcol; exact Hne).
  rewrite policyA_containers by (rewrite Ht; discriminate).
  rewrite Hcol, Ht. apply map_ext. intros c.
  unfold PolicyB.filterContainer, PolicyA.filterContainer, PolicyA.matchesVariant.
  destruct (containerImg c); [|reflexivity].
  cbn [Str.join String.concat existsb]. rewrite (toLowerCase_fixed t Hl).
  destruct (Str.includes _ t); reflexivity.
Qed.

Lemma policies_agree_on_single_token_witness :
  containers (PolicyB.timerCallback Sample.red Cases.redFirstNoLabel)
  = containers (PolicyA.filterSlidesByVariant Sample.red Cases.redFirstNoLabel).
Proof.
  apply (policies_agree_on_single_token Sample.red Cases.redFirstNoLabel "red");
    reflexivity.
Defined.

End MorePolicyBFacts.

(** ** More on the lifecycle *)
Section MoreLifecycleFacts.
Import JS Dom Gallery.

Lemma filterSlidesByVariant_keeps_wiring (pol : Policy) (res : value) (w : World) :
  target (Gallery.filterSlidesByVariant pol res w) = target w /\
  zoomDialogComponent (Gallery.filterSlidesByVariant pol res w) = zoomDialogComponent w /\
  aborted (Gallery.filterSlidesByVariant pol res w) = aborted w.
Proof. destruct pol; repeat split. Qed.

Lemma connected_wiring (J : string -> option value) (pol : Policy) (w : World) :
  target (connectedCallback J pol w)
    = addEventListener (aborted w) variantUpdate handleVariantUpdate (target w) /\
  zoomDialogComponent (connectedCallback J pol w)
    = addEventListener (aborted w) zoomMediaSelected handleZoomMediaSelected
                       (zoomDialogComponent w) /\
  aborted (connectedCallback J pol w) = aborted w.
Proof.
  unfold connectedCallback.
  match goal with |- context [if JS.truthy ?v then Gallery.filterSlidesByVariant _ _ ?w1 else _] =>
    destruct (JS.truthy v);
    [destruct (filterSlidesByVariant_keeps_wiring pol v w1) as (-> & -> & ->)|]
  end; repeat split.
Qed.

Lemma addEventListener_idem (a : bool) (ty : EventType) (cb : Handler)
      (t : option (list Listener)) :
  addEventListener a ty cb (addEventListener a ty cb t) = addEventListener a ty cb t.
Proof.
  destruct t as [ls|]; [|reflexivity]. unfold addEventListener.
  destruct a; [reflexivity|].
  destruct (existsb _ ls) eqn:E.
  - now rewrite E.
  - rewrite existsb_app. simpl.
    replace (sameListener _ _) with true by (destruct ty, cb; reflexivity).
    now rewrite orb_true_r.
Qed.

(** X17: attaching an element that is already attached adds no second
    listener: the listeners on the ancestor container and on the zoom dialog
    are as after the first attachment. *)
Theorem connected_twice_registers_once (J : string -> option value) (pol : Policy) (w : World) :
  target (connectedCallback J pol (connectedCallback J pol w))
    = target (connectedCallback J pol w) /\
  zoomDialogComponent (connectedCallback J pol (connectedCallback J pol w))
    = zoomDialogComponent (connectedCallback J pol w).
Proof.
  destruct (connected_wiring J pol (connectedCallback J pol w)) as (-> & -> & _).
  destruct (connected_wiring J pol w) as (-> & -> & ->).
  now rewrite !addEventListener_idem.
Qed.

(** X18: a gallery that was detached and is attached again does not listen
    any more: its controller stays aborted, so an event dispatched on the
    ancestor container still reaches no handler. *)
Theorem reattached_gallery_stays_deaf (J : string -> option value) (pol : Policy)
        (w : World) (event : Event) :
  dispatchOnTarget pol event (connectedCallback J pol (disconnectedCallback w))
  = (connectedCallback J pol (disconnectedCallback w), []).
Proof.
  unfold dispatchOnTarget.
  destruct (aborted_connect_registers_nothing J pol (disconnectedCallback w) eq_refl)
    as [-> _].
  destruct (disconnected_no_listeners w) as [-> | ->]; reflexivity.
Qed.

(** X19: detaching cancels no pending timer: the deferred pass runs on the
    detached gallery as it would have run on the attached one. *)
Theorem detach_keeps_pending_timers (w : World) :
  timers (disconnectedCallback w) = timers w /\
  runTimer (disconnectedCallback w) = disconnectedCallback (runTimer w).
Proof.
  split; [reflexivity|]. unfold runTimer. simpl.
  destruct (timers w); reflexivity.
Qed.



(** X21: when there is no global variant and the data attribute does not
    parse, attaching only registers the listeners: no filtering, no timer. *)
Theorem connected_swallows_parse_failure (J : string -> option value) (pol : Policy)
        (w : World) (text : string) :
  truthy (productData w)
    && truthy (get (productData w) "selected_or_first_available_variant") = false ->
  selectedVariant w = Some text ->
  J text = None ->
  page (connectedCallback J pol w) = page w /\
  timers (connectedCallback J pol w) = timers w /\
  target (connectedCallback J pol w)
    = addEventListener (aborted w) variantUpdate handleVariantUpdate (target w).
Proof.
  intros Hg Hs HJ. split; [|split; [|apply connected_wiring]];
    unfold connectedCallback; cbn [productData selectedVariant];
    rewrite Hg, Hs, HJ; cbn [truthy negb andb]; destruct (negb (Str.isEmpty text));
    reflexivity.
Qed.

Lemma connected_swallows_parse_failure_witness :
  page (connectedCallback Cases.parseBlue PolicyB Cases.brokenAttribute)
    = Cases.redFirstNoLabel /\
  timers (connectedCallback Cases.parseBlue PolicyB Cases.brokenAttribute) = [] /\
  target (connectedCallback Cases.parseBlue PolicyB Cases.brokenAttribute)
    = Some [{| onType := variantUpdate; callback := handleVariantUpdate |}].
Proof.
  apply (connected_swallows_parse_failure Cases.parseBlue PolicyB Cases.brokenAttribute
           "{not json"); reflexivity.
Defined.

Lemma runHandler_PolicyB_page (h : Handler) (event : Event) (w w' : World) :
  runHandler PolicyB h event w = inl w' -> page w' = page w.
Proof.
  destruct h; simpl;
    repeat match goal with
           | |- context [match detail ?e with _ => _ end] => destruct (detail e)
           | |- context [if ?b then _ else _] => destruct b
           | |- context [match slideshowEl ?p with _ => _ end] => destruct (slideshowEl p)
           | |- context [match Exn.filterSlidesByVariant ?r ?p with _ => _ end] =>
               destruct (Exn.filterSlidesByVariant r p)
           end; intros H; try discriminate H; injection H as <-; reflexivity.
Qed.

Lemma runHandler_PolicyA_timers (h : Handler) (event : Event) (w w' : World) :
  runHandler PolicyA h event w = inl w' -> timers w' = timers w.
Proof.
  destruct h; simpl;
    repeat match goal with
           | |- context [match detail ?e with _ => _ end] => destruct (detail e)
           | |- context [if ?b then _ else _] => destruct b
           | |- context [match slideshowEl ?p with _ => _ end] => destruct (slideshowEl p)
           | |- context [match Exn.filterSlidesByVariant ?r ?p with _ => _ end] =>
               destruct (Exn.filterSlidesByVariant r p)
           end; intros H; try discriminate H; injection H as <-; reflexivity.
Qed.

Lemma invoke_PolicyB_page (event : Event) (ls : list Listener) :
  forall w errs, page (fst (invoke PolicyB ls event w errs)) = page w.
Proof.
  induction ls as [|l ls IH]; intros w errs; [reflexivity|].
  cbn [invoke]. destruct (onType l), (type event); try apply IH;
    destruct (runHandler PolicyB (callback l) event w) as [w'|e] eqn:E; rewrite IH;
    try reflexivity; now apply runHandler_PolicyB_page in E.
Qed.

Lemma invoke_PolicyA_timers (event : Event) (ls : list Listener) :
  forall w errs, timers (fst (invoke PolicyA ls event w errs)) = timers w.
Proof.
  induction ls as [|l ls IH]; intros w errs; [reflexivity|].
  cbn [invoke]. destruct (onType l), (type event); try apply IH;
    destruct (runHandler PolicyA (callback l) event w) as [w'|e] eqn:E; rewrite IH;
    try reflexivity; now apply runHandler_PolicyA_timers in E.
Qed.

(** X22: under Policy B neither attaching nor any dispatched event changes
    the page at once: every change of the page waits for a timer. *)
Theorem policyB_changes_page_only_by_timer (J : string -> option value)
        (event : Event) (w : World) :
  page (connectedCallback J PolicyB w) = page w /\
  page (fst (dispatchOnTarget PolicyB event w)) = page w.
Proof.
  split.
  - unfold connectedCallback.
    match goal with |- page (if ?b then _ else _) = _ => destruct b end; reflexivity.
  - unfold dispatchOnTarget. destruct (target w); [apply invoke_PolicyB_page | reflexivity].
Qed.

(** X23: under Policy A no timer is ever queued, neither by attaching nor by
    a dispatched event. *)
Theorem policyA_queues_no_timer (J : string -> option value) (event : Event) (w : World) :
  timers (connectedCallback J PolicyA w) = timers w /\
  timers (fst (dispatchOnTarget PolicyA event w)) = timers w.
Proof.
  split.
  - unfold connectedCallback.
    match goal with |- timers (if ?b then _ else _) = _ => destruct b end; reflexivity.
  - unfold dispatchOnTarget. destruct (target w); [apply invoke_PolicyA_timers | reflexivity].
Qed.

(** X24: the variant-update handler throws exactly when the event has no
    detail ([null] or [undefined]), or, under Policy A, when the event
    carries a truthy resource whose extraction throws; in every other case,
    also without a resource, it returns normally. *)
Theorem handler_throws_exactly_when (pol : Policy) (event : Event) (w : World) :
  runHandler pol handleVariantUpdate event w = inr TypeError
  <-> (detail event = Undefined \/ detail event = Null \/
       (pol = PolicyA /\
        truthy (get (detail event) "resource") = true /\
        Exn.extractVariantValues (get (detail event) "resource") = Exn.Throw)).
Proof.
  assert (Hfilter : forall r p,
             (exists q, Exn.filterSlidesByVariant r p = Exn.Return q) \/
             (Exn.filterSlidesByVariant r p = Exn.Throw /\
              Exn.extractVariantValues r = Exn.Throw)).
  { intros r p. unfold Exn.filterSlidesByVariant.
    destruct (Exn.extractVariantValues r); [left | right; now split].
    destruct (_ =? 0)%nat; eauto. }
  destruct event as [ty d]. cbn [detail runHandler].
  destruct d as [| |b|n|str|l|props];
    try (split; [discriminate | intros [H|[H|(_ & H & _)]]; discriminate H]);
    try (split; auto; fail).
  cbn [get].
  destruct (truthy (lookup "resource" props)) eqn:Ht.
  - rewrite Ht. destruct pol.
    + destruct (Hfilter (lookup "resource" props) (page w)) as [[q Hq] | [Hq Hx]];
        rewrite Hq.
      * split; [discriminate|]. intros [H|[H|(_ & _ & H)]]; try discriminate H.
        unfold Exn.filterSlidesByVariant in Hq. rewrite H in Hq. discriminate Hq.
      * split; auto.
    + split; [discriminate|]. intros [H|[H|(H & _)]]; discriminate H.
  - cbn [truthy]. split; [discriminate|].
    intros [H|[H|(_ & H & _)]]; discriminate H.
Qed.

(** X25: on a gallery attached with no initial variant, a variant-update
    event carrying a truthy resource runs [filterSlidesByVariant] on that
    resource once and no error is reported; except that under Policy A a
    resource whose extraction throws leaves the world as it is and the
    [TypeError] is reported. *)
Theorem attached_dispatch_runs_filter (J : string -> option value) (pol : Policy)
        (w : World) (res : value) :
  target w = Some [] -> aborted w = false ->
  truthy (productData w) = false -> selectedVariant w = None ->
  truthy res = true ->
  dispatchOnTarget pol {| type := variantUpdate; detail := Object [("resource", res)] |}
                   (connectedCallback J pol w)
  = match pol, Exn.extractVariantValues res with
    | PolicyA, Exn.Throw => (connectedCallback J pol w, [TypeError])
    | _, _ => (Gallery.filterSlidesByVariant pol res (connectedCallback J pol w), [])
    end.
Proof.
  intros Ht Ha Hp Hs Hres.
  assert (Hc : connectedCallback J pol w
               = {| page := page w; timers := timers w; aborted := false;
                    target := Some [{| onType := variantUpdate; callback := handleVariantUpdate |}];
                    zoomDialogComponent :=
                      addEventListener false zoomMediaSelected handleZoomMediaSelected
                                       (zoomDialogComponent w);
                    productData := productData w; selectedVariant := None;
                    selectCalls := selectCalls w |}).
  { unfold connectedCallback. cbn [productData selectedVariant].
    rewrite Hp, Hs, Ht, Ha. reflexivity. }
  rewrite Hc. unfold dispatchOnTarget. cbn [target invoke onType type callback].
  unfold runHandler. cbn [detail get lookup String.eqb Ascii.eqb Bool.eqb].
  rewrite Hres. cbn iota. rewrite Hres.
  destruct pol; [|destruct (Exn.extractVariantValues res); reflexivity].
  cbn [page]. rewrite exn_filter_spec, exn_extract_spec.
  destruct (Spec.extractionThrows res); reflexivity.
Qed.

Lemma attached_dispatch_runs_filter_witness :
  dispatchOnTarget PolicyA Sample.redSelected
                   (connectedCallback Cases.parseBlue PolicyA Sample.freshShirts)
  = (Gallery.filterSlidesByVariant PolicyA Sample.red
       (connectedCallback Cases.parseBlue PolicyA Sample.freshShirts), []).
Proof.
  exact (attached_dispatch_runs_filter Cases.parseBlue PolicyA Sample.freshShirts Sample.red
           eq_refl eq_refl eq_refl eq_refl eq_refl).
Defined.

(** The same event with a resource that [String(...)] rejects: under
    Policy A the error is reported and nothing changes. *)
Example attached_dispatch_reports_throw :
  dispatchOnTarget PolicyA
    {| type := variantUpdate; detail := Object [("resource", Cases.unprintableOption)] |}
    (connectedCallback Cases.parseBlue PolicyA Sample.freshShirts)
  = (connectedCallback Cases.parseBlue PolicyA Sample.freshShirts, [TypeError]).
Proof. reflexivity. Qed.

End MoreLifecycleFacts.
